(** * plot_training.py: a shallow embedding and its specification

    The script is one linear sequence of calls into pandas and matplotlib.
    It is embedded as a computation in a state-and-exception monad over a
    world made of the working directory, the pyplot figure store and the
    trace of observable effects.  The two libraries are not part of the
    repository: what they compute on data (parsing, unit conversion,
    rendering, display) is a parameter of the development, gathered in
    [Library]; what the script itself decides (which calls, in which order,
    with which arguments, which exceptions it catches) is written out. *)

From Stdlib Require Import ZArith QArith Ascii String List Lia.
From stdpp Require Import gmap strings list fin_maps.

Set Default Proof Using "Type".

(** ** Python values the script handles *)

(** Exceptions the libraries can raise.  [SystemExit] is not among them: it
    is not an [Exception] and is modelled by [Exit] in [result]. *)
Inductive exn : Type :=
| FileNotFoundError
| PermissionError
| IsADirectoryError
| UnicodeDecodeError
| EmptyDataError
| ParserError
| KeyError (key : string)
| IndexError
| TypeError
| ValueError
| RuntimeError.

(** The test of [except FileNotFoundError:]; none of the other classes above
    derives from it ([EmptyDataError] and [ParserError] derive from
    [ValueError], [KeyError] and [IndexError] from [LookupError]). *)
Definition isinstance_FileNotFoundError (e : exn) : bool :=
  match e with
  | FileNotFoundError => true
  | _ => false
  end.

(** A column: the inferred dtype and the cells as read. *)
Inductive dtype : Type := Numeric | Object.

Record Series : Type := mkSeries {
  s_dtype : dtype;
  s_values : list string
}.

(** A table: the length of the row index and the named columns in file
    order. *)
Record DataFrame : Type := mkDataFrame {
  df_nrows : nat;
  df_columns : list (string * Series)
}.

(** [df.empty]: true when any axis has length zero. *)
Definition empty (df : DataFrame) : bool :=
  (df_nrows df =? 0)%nat || (length (df_columns df) =? 0)%nat.

Fixpoint column (cols : list (string * Series)) (key : string) : option Series :=
  match cols with
  | [] => None
  | (k, s) :: rest => if String.eqb k key then Some s else column rest key
  end.

(** [df[key]]: the column, or [KeyError]. *)
Definition getitem (df : DataFrame) (key : string) : exn + Series :=
  match column (df_columns df) key with
  | Some s => inr s
  | None => inl (KeyError key)
  end.

(** ** matplotlib objects *)

Record Line2D : Type := mkLine {
  l_x : Series;
  l_y : Series;
  l_alpha : option Q;
  l_label : option string;
  l_linewidth : option Q;
  l_color : option string
}.

Record Axes : Type := mkAxes {
  ax_lines : list Line2D;
  ax_xlabel : string;
  ax_ylabel : string;
  ax_title : string;
  ax_legend : option (list string);
  ax_grid : option Q
}.

(** A fresh subplot: no line, empty labels, no legend, grid off. *)
Definition new_axes : Axes :=
  {| ax_lines := []; ax_xlabel := ""; ax_ylabel := ""; ax_title := "";
     ax_legend := None; ax_grid := None |}.

Record Figure : Type := mkFigure {
  fig_size : Q * Q;
  fig_nrows : nat;
  fig_ncols : nat;
  fig_axes : list Axes;
  fig_suptitle : option (string * Z * string);
  fig_tight : bool
}.

(** The figure pyplot creates when asked for the current one and there is
    none. *)
Definition default_figure : Figure :=
  {| fig_size := (6.4, 4.8)%Q; fig_nrows := 0; fig_ncols := 0; fig_axes := [];
     fig_suptitle := None; fig_tight := false |}.

(** References into the figure store: Python variables [fig], [axes] and
    [ax] alias objects owned by pyplot. *)
Definition FigRef : Type := nat.

Record AxesArray : Type := mkAxesArray {
  arr_fig : FigRef;
  arr_rows : nat;
  arr_cols : nat
}.

Record AxRef : Type := mkAxRef {
  ref_fig : FigRef;
  ref_idx : nat
}.

(** Keyword arguments of [Axes.plot] the script uses. *)
Record LineKw : Type := mkLineKw {
  kw_alpha : option Q;
  kw_label : option string;
  kw_linewidth : option Q;
  kw_color : option string
}.

(** ** The world *)

Inductive event : Type :=
| EvPrint (line : string)
| EvSavefig (fname : string) (fig : Figure) (dpi : Z) (bbox_inches : string)
| EvShow (shown : list Figure).

Record World : Type := mkWorld {
  fs : gmap string string;
  figs : list Figure;
  trace : list event
}.

Definition log (ev : event) (w : World) : World :=
  {| fs := fs w; figs := figs w; trace := trace w ++ [ev] |}.

Definition set_figs (fl : list Figure) (w : World) : World :=
  {| fs := fs w; figs := fl; trace := trace w |}.

(** ** The monad: state, exceptions and [sys.exit] *)

Inductive result (A : Type) : Type :=
| Ok (a : A)
| Raise (e : exn)
| Exit (code : Z).
Arguments Ok {A} a.
Arguments Raise {A} e.
Arguments Exit {A} code.

Definition M (A : Type) : Type := World -> result A * World.

Definition ret {A} (a : A) : M A := fun w => (Ok a, w).

Definition bind {A B} (m : M A) (k : A -> M B) : M B := fun w =>
  match m w with
  | (Ok a, w1) => k a w1
  | (Raise e, w1) => (Raise e, w1)
  | (Exit c, w1) => (Exit c, w1)
  end.

Declare Scope py_scope.
Delimit Scope py_scope with py.
Notation "x ← y ; z" := (bind y (fun x => z))
  (at level 20, y at level 100, z at level 200, only parsing) : py_scope.
Notation "' x ← y ; z" := (bind y (fun x => z))
  (at level 20, x pattern, y at level 100, z at level 200, only parsing) : py_scope.
Notation "x ;; z" := (bind x (fun _ => z))
  (at level 100, z at level 200, only parsing, right associativity) : py_scope.
Local Open Scope py_scope.

(** A pure library result turned into a step. *)
Definition lift {A} (r : exn + A) : M A := fun w =>
  match r with
  | inl e => (Raise e, w)
  | inr a => (Ok a, w)
  end.

(** [try: body / except <class>: handler]. *)
Definition try_except {A} (body : M A) (catches : exn -> bool) (handler : M A) : M A :=
  fun w =>
    match body w with
    | (Raise e, w1) => if catches e then handler w1 else (Raise e, w1)
    | other => other
    end.

Definition print (line : string) : M unit := fun w => (Ok tt, log (EvPrint line) w).

Definition sys_exit {A} (code : Z) : M A := fun w => (Exit code, w).

(** ** The external libraries

    A [Library] is fixed for a run.  What the libraries read on their own
    when they start, such as a matplotlibrc in the working directory, is
    part of this parameter and not of the directory the script reads. *)

Record Library : Type := mkLibrary {
  (** pandas' parser on the text of a file that could be opened *)
  parse_csv : string -> exn + DataFrame;
  (** matplotlib's conversion of the data of one [plot] call; [None] when
      the data is accepted *)
  plot_check : Series -> Series -> option exn;
  (** the backend's rendering of a figure, at a resolution and with a
      bounding box, into the bytes of the image *)
  render : Figure -> Z -> string -> exn + string;
  (** the interactive display; [None] also stands for the no-op of a
      non-interactive backend *)
  show_figs : list Figure -> option exn
}.

Section Script.

Context (lib : Library).

(** [pd.read_csv(path)] *)
Definition read_csv (path : string) : M DataFrame := fun w =>
  match fs w !! path with
  | None => (Raise FileNotFoundError, w)
  | Some text => lift (parse_csv lib text) w
  end.

(** [plt.subplots(nrows, ncols, figsize=...)] *)
Definition subplots (nrows ncols : nat) (figsize : Q * Q) : M (FigRef * AxesArray) :=
  fun w =>
    let fig := {| fig_size := figsize; fig_nrows := nrows; fig_ncols := ncols;
                  fig_axes := replicate (nrows * ncols) new_axes;
                  fig_suptitle := None; fig_tight := false |} in
    let r := length (figs w) in
    (Ok (r, {| arr_fig := r; arr_rows := nrows; arr_cols := ncols |}),
     set_figs (figs w ++ [fig]) w).

Definition update_fig (r : FigRef) (f : Figure -> Figure) : M unit := fun w =>
  (Ok tt, set_figs (alter f r (figs w)) w).

Definition set_axes (al : list Axes) (fig : Figure) : Figure :=
  {| fig_size := fig_size fig; fig_nrows := fig_nrows fig; fig_ncols := fig_ncols fig;
     fig_axes := al; fig_suptitle := fig_suptitle fig; fig_tight := fig_tight fig |}.

Definition update_axes (r : AxRef) (f : Axes -> Axes) : M unit :=
  update_fig (ref_fig r) (fun fig => set_axes (alter f (ref_idx r) (fig_axes fig)) fig).

(** [fig.suptitle(t, fontsize=..., fontweight=...)] *)
Definition suptitle (r : FigRef) (t : string) (fontsize : Z) (fontweight : string) : M unit :=
  update_fig r (fun fig =>
    {| fig_size := fig_size fig; fig_nrows := fig_nrows fig; fig_ncols := fig_ncols fig;
       fig_axes := fig_axes fig; fig_suptitle := Some (t, fontsize, fontweight);
       fig_tight := fig_tight fig |}).

(** [axes[i, j]] on the array [subplots] returned *)
Definition axes_getitem (a : AxesArray) (i j : nat) : M AxRef := fun w =>
  if (i <? arr_rows a)%nat && (j <? arr_cols a)%nat
  then (Ok {| ref_fig := arr_fig a; ref_idx := i * arr_cols a + j |}, w)
  else (Raise IndexError, w).

(** [ax.plot(x, y, **kw)] *)
Definition plot (ax : AxRef) (x y : Series) (kw : LineKw) : M unit := fun w =>
  match plot_check lib x y with
  | Some e => (Raise e, w)
  | None =>
      update_axes ax (fun a =>
        {| ax_lines := ax_lines a ++
             [ {| l_x := x; l_y := y; l_alpha := kw_alpha kw; l_label := kw_label kw;
                  l_linewidth := kw_linewidth kw; l_color := kw_color kw |} ];
           ax_xlabel := ax_xlabel a; ax_ylabel := ax_ylabel a; ax_title := ax_title a;
           ax_legend := ax_legend a; ax_grid := ax_grid a |}) w
  end.

Definition set_xlabel (ax : AxRef) (s : string) : M unit :=
  update_axes ax (fun a =>
    {| ax_lines := ax_lines a; ax_xlabel := s; ax_ylabel := ax_ylabel a;
       ax_title := ax_title a; ax_legend := ax_legend a; ax_grid := ax_grid a |}).

Definition set_ylabel (ax : AxRef) (s : string) : M unit :=
  update_axes ax (fun a =>
    {| ax_lines := ax_lines a; ax_xlabel := ax_xlabel a; ax_ylabel := s;
       ax_title := ax_title a; ax_legend := ax_legend a; ax_grid := ax_grid a |}).

Definition set_title (ax : AxRef) (s : string) : M unit :=
  update_axes ax (fun a =>
    {| ax_lines := ax_lines a; ax_xlabel := ax_xlabel a; ax_ylabel := ax_ylabel a;
       ax_title := s; ax_legend := ax_legend a; ax_grid := ax_grid a |}).

(** [ax.legend()]: one entry per labelled line drawn so far *)
Definition legend (ax : AxRef) : M unit :=
  update_axes ax (fun a =>
    {| ax_lines := ax_lines a; ax_xlabel := ax_xlabel a; ax_ylabel := ax_ylabel a;
       ax_title := ax_title a;
       ax_legend := Some (omap l_label (ax_lines a));
       ax_grid := ax_grid a |}).

(** [ax.grid(visible, alpha=...)]: a call that gives line properties turns
    the grid on, whatever [visible] says; the script passes [True]. *)
Definition grid (ax : AxRef) (visible : bool) (alpha : Q) : M unit :=
  update_axes ax (fun a =>
    {| ax_lines := ax_lines a; ax_xlabel := ax_xlabel a; ax_ylabel := ax_ylabel a;
       ax_title := ax_title a; ax_legend := ax_legend a;
       ax_grid := Some alpha |}).

(** pyplot's current figure: the last one created, made on demand. *)
Definition ensure_figure (fl : list Figure) : list Figure :=
  match fl with
  | [] => [default_figure]
  | _ :: _ => fl
  end.

Definition gcf : M FigRef := fun w =>
  let fl := ensure_figure (figs w) in
  (Ok (pred (length fl)), set_figs fl w).

(** [plt.tight_layout()] *)
Definition tight_layout : M unit :=
  r ← gcf;
  update_fig r (fun fig =>
    {| fig_size := fig_size fig; fig_nrows := fig_nrows fig; fig_ncols := fig_ncols fig;
       fig_axes := fig_axes fig; fig_suptitle := fig_suptitle fig; fig_tight := true |}).

(** [plt.savefig(fname, dpi=..., bbox_inches=...)] *)
Definition savefig (fname : string) (dpi : Z) (bbox_inches : string) : M unit :=
  r ← gcf;
  fun w =>
    let fig := default default_figure (figs w !! r) in
    match render lib fig dpi bbox_inches with
    | inl e => (Raise e, w)
    | inr bytes =>
        (Ok tt, log (EvSavefig fname fig dpi bbox_inches)
                  {| fs := <[fname := bytes]> (fs w); figs := figs w; trace := trace w |})
    end.

(** [plt.show()] *)
Definition show : M unit := fun w =>
  let w1 := log (EvShow (figs w)) w in
  match show_figs lib (figs w) with
  | Some e => (Raise e, w1)
  | None => (Ok tt, w1)
  end.

(** ** The script *)

Definition input_file : string := "train-log.csv".
Definition output_file : string := "training_metrics.png".
Definition msg_not_found : string := "Error: train-log.csv not found. Run training first.".
Definition msg_empty : string := "Error: train-log.csv is empty.".
Definition msg_saved : string := "✓ Saved visualization to training_metrics.png".

(** Lines 11-19. *)
Definition load_table : M DataFrame :=
  df ← try_except (read_csv "train-log.csv") isinstance_FileNotFoundError
         (print "Error: train-log.csv not found. Run training first.";; sys_exit 1);
  (if empty df
   then print "Error: train-log.csv is empty.";; sys_exit 1
   else ret tt);;
  ret df.

(** Lines 25-33, plot 1: reward over episodes. *)
Definition plot_rewards (df : DataFrame) (axes : AxesArray) : M unit :=
  ax ← axes_getitem axes 0 0;
  x ← lift (getitem df "episode");
  y ← lift (getitem df "reward");
  plot ax x y {| kw_alpha := Some 0.6%Q; kw_label := Some "Episode Reward"%string;
                 kw_linewidth := None; kw_color := None |};;
  x ← lift (getitem df "episode");
  y ← lift (getitem df "avg100");
  plot ax x y {| kw_alpha := None; kw_label := Some "Avg100 Reward"%string;
                 kw_linewidth := Some 2%Q; kw_color := Some "orange"%string |};;
  set_xlabel ax "Episode";;
  set_ylabel ax "Reward";;
  set_title ax "Rewards";;
  legend ax;;
  grid ax true 0.3%Q.

(** Lines 35-41, plot 2: loss over episodes. *)
Definition plot_loss (df : DataFrame) (axes : AxesArray) : M unit :=
  ax ← axes_getitem axes 0 1;
  x ← lift (getitem df "episode");
  y ← lift (getitem df "loss");
  plot ax x y {| kw_alpha := Some 0.7%Q; kw_label := None;
                 kw_linewidth := None; kw_color := Some "red"%string |};;
  set_xlabel ax "Episode";;
  set_ylabel ax "Loss (EMA)";;
  set_title ax "Training Loss";;
  grid ax true 0.3%Q.

(** Lines 43-49, plot 3: epsilon decay. *)
Definition plot_epsilon (df : DataFrame) (axes : AxesArray) : M unit :=
  ax ← axes_getitem axes 1 0;
  x ← lift (getitem df "episode");
  y ← lift (getitem df "epsilon");
  plot ax x y {| kw_alpha := None; kw_label := None;
                 kw_linewidth := None; kw_color := Some "green"%string |};;
  set_xlabel ax "Episode";;
  set_ylabel ax "Epsilon";;
  set_title ax "Exploration Rate Decay";;
  grid ax true 0.3%Q.

(** Lines 51-57, plot 4: steps per second. *)
Definition plot_throughput (df : DataFrame) (axes : AxesArray) : M unit :=
  ax ← axes_getitem axes 1 1;
  x ← lift (getitem df "episode");
  y ← lift (getitem df "steps_per_sec");
  plot ax x y {| kw_alpha := Some 0.7%Q; kw_label := None;
                 kw_linewidth := None; kw_color := Some "purple"%string |};;
  set_xlabel ax "Episode";;
  set_ylabel ax "Steps/Second";;
  set_title ax "Training Throughput";;
  grid ax true 0.3%Q.

(** Lines 21-59. *)
Definition draw_figure (df : DataFrame) : M unit :=
  '(fig, axes) ← subplots 2 2 (14, 10)%Q;
  suptitle fig "Breakout RL Training Metrics" 16 "bold";;
  plot_rewards df axes;;
  plot_loss df axes;;
  plot_epsilon df axes;;
  plot_throughput df axes;;
  tight_layout.

(** Lines 60-62. *)
Definition save_and_show : M unit :=
  savefig "training_metrics.png" 150 "tight";;
  print "✓ Saved visualization to training_metrics.png";;
  show.

Definition main : M unit :=
  df ← load_table;
  draw_figure df;;
  save_and_show.

(** ** A run of the process *)

Inductive Termination : Type :=
| Exited (code : Z)
| Traceback (e : exn).

(** The status the shell sees: an uncaught exception ends the interpreter
    with status 1. *)
Definition exit_status (t : Termination) : Z :=
  match t with
  | Exited c => c
  | Traceback _ => 1
  end.

Record Outcome : Type := mkOutcome {
  termination : Termination;
  final : World
}.

(** A new process starts with the files of the working directory, no
    figure and nothing printed. *)
Definition initial (files : gmap string string) : World :=
  {| fs := files; figs := []; trace := [] |}.

Definition finish {A} (rw : result A * World) : Outcome :=
  {| termination := match rw.1 with
                    | Ok _ => Exited 0
                    | Exit c => Exited c
                    | Raise e => Traceback e
                    end;
     final := rw.2 |}.

Definition run (files : gmap string string) : Outcome := finish (main (initial files)).

End Script.

Definition printed_line (ev : event) : option string :=
  match ev with
  | EvPrint s => Some s
  | _ => None
  end.

Definition saved_image (ev : event) : option (string * Figure * Z * string) :=
  match ev with
  | EvSavefig f fig d b => Some (f, fig, d, b)
  | _ => None
  end.

(** The lines written to standard output, and the images written. *)
Definition stdout (o : Outcome) : list string := omap printed_line (trace (final o)).
Definition images (o : Outcome) : list (string * Figure * Z * string) :=
  omap saved_image (trace (final o)).
Definition files_after (o : Outcome) : gmap string string := fs (final o).

(** ** A reference double of the libraries

    A small stand-in for pandas and matplotlib, used to run the script on
    concrete directories.  It is not the libraries: it covers plain
    comma-separated text with a header line (no quoting, no index column),
    pads a short row with missing values, refuses a row longer than the
    header, infers a column as numeric when every cell that is not blank is
    a number literal, and renders a figure as the list of its subplot
    titles.  matplotlib plots a text column as categories: that is the
    double with [strict] unset; with [strict] set it stands for a plotting
    library that refuses such a column.  The theorems below hold for every
    [Library]; the double only supplies concrete inputs. *)
Module Double.

Fixpoint split_on (sep : ascii) (s : string) : list string :=
  match s with
  | EmptyString => [EmptyString]
  | String c rest =>
      if Ascii.eqb c sep then EmptyString :: split_on sep rest
      else match split_on sep rest with
           | [] => [String c EmptyString]
           | h :: t => String c h :: t
           end
  end.

Definition nonblank (s : string) : bool := negb (String.eqb s "").

Definition is_decimal_char (c : ascii) : bool :=
  let n := nat_of_ascii c in
  ((48 <=? n)%nat && (n <=? 57)%nat) || Ascii.eqb c "."%char || Ascii.eqb c "-"%char
  || Ascii.eqb c "+"%char || Ascii.eqb c "e"%char || Ascii.eqb c "E"%char.

Fixpoint all_chars (p : ascii -> bool) (s : string) : bool :=
  match s with
  | EmptyString => true
  | String c rest => p c && all_chars p rest
  end.

Definition is_decimal (s : string) : bool := nonblank s && all_chars is_decimal_char s.

(** A blank cell is a missing value and leaves the column numeric. *)
Definition infer (cells : list string) : Series :=
  {| s_dtype := if forallb (fun c => negb (nonblank c) || is_decimal c) cells
                then Numeric else Object;
     s_values := cells |}.

(** A line read from a file with CR LF endings. *)
Fixpoint strip_cr (s : string) : string :=
  match s with
  | EmptyString => EmptyString
  | String c rest =>
      match rest with
      | EmptyString => if Ascii.eqb c "013"%char then EmptyString else s
      | String _ _ => String c (strip_cr rest)
      end
  end.

Definition parse (text : string) : exn + DataFrame :=
  match filter (fun l => Is_true (nonblank l))
               (map strip_cr (split_on "010"%char text)) with
  | [] => inl EmptyDataError
  | header :: body =>
      let names := split_on ","%char header in
      let rows := map (split_on ","%char) body in
      if forallb (fun r => (length r <=? length names)%nat) rows
      then inr {| df_nrows := length rows;
                  df_columns :=
                    imap (fun i name => (name, infer (map (fun r => nth i r ""%string) rows)))
                         names |}
      else inl ParserError
  end.

Definition check (strict : bool) (x y : Series) : option exn :=
  match s_dtype x, s_dtype y with
  | Numeric, Numeric => None
  | _, _ => if strict then Some TypeError else None
  end.

Definition draw (fig : Figure) (dpi : Z) (bbox : string) : exn + string :=
  inr (String.concat "|" (map ax_title (fig_axes fig))).

Definition library (strict : bool) (display : option exn) : Library :=
  {| parse_csv := parse;
     plot_check := check strict;
     render := draw;
     show_figs := fun _ => display |}.

(** The scenario of the specification: three episodes. *)
Definition three_episodes : string :=
  "episode,reward,avg100,loss,epsilon,steps_per_sec
0,1.0,1.0,0.9,1.0,50
1,2.0,1.5,0.7,0.9,55
2,1.5,1.5,0.6,0.8,52
".

Definition header_only : string :=
  "episode,reward,avg100,loss,epsilon,steps_per_sec
".

Definition no_loss_column : string :=
  "episode,reward,avg100,epsilon,steps_per_sec
0,1.0,1.0,1.0,50
".

Definition text_in_loss : string :=
  "episode,reward,avg100,loss,epsilon,steps_per_sec
0,1.0,1.0,n/a,1.0,50
".

Definition dir (text : string) : gmap string string := {[ "train-log.csv"%string := text ]}.

Definition table_of (text : string) : DataFrame :=
  match parse text with
  | inr df => df
  | inl _ => {| df_nrows := 0; df_columns := [] |}
  end.

Definition three_episodes_table : DataFrame := Eval vm_compute in table_of three_episodes.
Definition no_loss_column_table : DataFrame := Eval vm_compute in table_of no_loss_column.
Definition text_in_loss_table : DataFrame := Eval vm_compute in table_of text_in_loss.

(** The figure the script saves in the three-episode scenario. *)
Definition three_episodes_figure : Figure :=
  Eval vm_compute in
    match images (run (library true None) (dir three_episodes)) with
    | (_, fig, _, _) :: _ => fig
    | [] => default_figure
    end.

(** The three episodes with one more column. *)
Definition with_note_column : string :=
  "episode,reward,avg100,loss,epsilon,steps_per_sec,note
0,1.0,1.0,0.9,1.0,50,warmup
1,2.0,1.5,0.7,0.9,55,ok
2,1.5,1.5,0.6,0.8,52,ok
".

Definition with_note_column_table : DataFrame := Eval vm_compute in table_of with_note_column.

(** A later data row longer than the header. *)
Definition ragged : string :=
  "episode,reward,avg100,loss,epsilon,steps_per_sec
0,1.0,1.0,0.9,1.0,50
1,2.0,1.5,0.7,0.9,55,7
".

(** A directory that also holds an image left by an earlier run. *)
Definition with_stale_image (text : string) : gmap string string :=
  <[ "training_metrics.png"%string := "stale"%string ]> (dir text).

(** A backend that cannot write. *)
Definition read_only_library : Library :=
  {| parse_csv := parse;
     plot_check := check true;
     render := fun _ _ _ => inl PermissionError;
     show_figs := fun _ => None |}.

End Double.

(** ** Specification vocabulary *)

Definition required_columns : list string :=
  ["episode"; "reward"; "avg100"; "loss"; "epsilon"; "steps_per_sec"]%string.

Definition plotted_columns : list string :=
  ["reward"; "avg100"; "loss"; "epsilon"; "steps_per_sec"]%string.

Definition well_formed (lib : Library) (df : DataFrame) : Prop :=
  exists ep, column (df_columns df) "episode" = Some ep /\
    forall c, In c plotted_columns ->
      exists y, column (df_columns df) c = Some y /\ plot_check lib ep y = None.

Inductive cause (lib : Library) (df : DataFrame) : exn -> Prop :=
| cause_missing c :
    In c required_columns ->
    column (df_columns df) c = None ->
    cause lib df (KeyError c)
| cause_rejected c ep y e :
    In c plotted_columns ->
    column (df_columns df) "episode" = Some ep ->
    column (df_columns df) c = Some y ->
    plot_check lib ep y = Some e ->
    cause lib df e.

(** matplotlib's style defaults the script relies on without setting them. *)
Record rcParams : Type := mkRc {
  lines_linewidth : Q;
  prop_cycle : list string
}.

Definition matplotlib_defaults : rcParams :=
  {| lines_linewidth := 1.5%Q;
     prop_cycle := ["#1f77b4"; "#ff7f0e"; "#2ca02c"; "#d62728"; "#9467bd";
                    "#8c564b"; "#e377c2"; "#7f7f7f"; "#bcbd22"; "#17becf"]%string |}.

(** The width a line is drawn with. *)
Definition drawn_linewidth (rc : rcParams) (l : Line2D) : Q :=
  default (lines_linewidth rc) (l_linewidth l).

(** The colour a line is drawn with when it is the [n]-th line of its
    subplot to take its colour from the cycle. *)
Definition drawn_color (rc : rcParams) (n : nat) (l : Line2D) : string :=
  match l_color l with
  | Some c => c
  | None => nth (n mod length (prop_cycle rc)) (prop_cycle rc) "C0"%string
  end.

(** One subplot is complete: both axis labels, a title and a light grid. *)
Definition decorated (a : Axes) : Prop :=
  ax_xlabel a <> ""%string /\ ax_ylabel a <> ""%string /\ ax_title a <> ""%string /\
  exists alpha, ax_grid a = Some alpha /\ (0 < alpha)%Q /\ (alpha < 1)%Q.

(** The first subplot: the two reward series over the episode index. *)
Definition rewards_chart (df : DataFrame) (a : Axes) : Prop :=
  exists ep rw av l1 l2,
    column (df_columns df) "episode" = Some ep /\
    column (df_columns df) "reward" = Some rw /\
    column (df_columns df) "avg100" = Some av /\
    ax_lines a = [l1; l2] /\
    l_x l1 = ep /\ l_y l1 = rw /\ l_label l1 = Some "Episode Reward"%string /\
    l_linewidth l1 = None /\ l_color l1 = None /\
    l_x l2 = ep /\ l_y l2 = av /\ l_label l2 = Some "Avg100 Reward"%string /\
    l_linewidth l2 = Some 2%Q /\ l_color l2 = Some "orange"%string /\
    ax_legend a = Some ["Episode Reward"; "Avg100 Reward"]%string.

Definition four_charts (df : DataFrame) (fig : Figure) : Prop :=
  fig_nrows fig = 2%nat /\ fig_ncols fig = 2%nat /\
  length (fig_axes fig) = 4%nat /\
  Forall decorated (fig_axes fig) /\
  exists a, fig_axes fig !! 0%nat = Some a /\ rewards_chart df a.

(** A step that reads and writes the figure store only. *)
Definition figs_only {A} (m : M A) : Prop :=
  forall f fl t,
    m (mkWorld f fl t) =
    ((m (mkWorld ∅ fl [])).1, mkWorld f (figs (m (mkWorld ∅ fl [])).2) t).

(** A library that differs in the interactive display only. *)
Definition with_display (lib : Library) (display : list Figure -> option exn) : Library :=
  {| parse_csv := parse_csv lib; plot_check := plot_check lib;
     render := render lib; show_figs := display |}.

(** [read_csv] raises what the handler of line 13 catches. *)
Definition input_missing (lib : Library) (files : gmap string string) : Prop :=
  files !! input_file = None \/
  exists text e, files !! input_file = Some text /\ parse_csv lib text = inl e /\
                 isinstance_FileNotFoundError e = true.

(** The six ways a run can go. *)
Inductive behaviour (lib : Library) (files : gmap string string) : Outcome -> Prop :=
| not_found :
    input_missing lib files ->
    behaviour lib files (mkOutcome (Exited 1) (mkWorld files [] [EvPrint msg_not_found]))
| read_failed text e :
    files !! input_file = Some text ->
    parse_csv lib text = inl e ->
    isinstance_FileNotFoundError e = false ->
    behaviour lib files (mkOutcome (Traceback e) (mkWorld files [] []))
| table_empty text df :
    files !! input_file = Some text ->
    parse_csv lib text = inr df ->
    empty df = true ->
    behaviour lib files (mkOutcome (Exited 1) (mkWorld files [] [EvPrint msg_empty]))
| draw_failed text df e fl :
    files !! input_file = Some text ->
    parse_csv lib text = inr df ->
    empty df = false ->
    cause lib df e ->
    behaviour lib files (mkOutcome (Traceback e) (mkWorld files fl []))
| save_failed text df fig e :
    files !! input_file = Some text ->
    parse_csv lib text = inr df ->
    empty df = false ->
    well_formed lib df ->
    four_charts df fig ->
    draw_figure lib df (initial ∅) = (Ok tt, mkWorld ∅ [fig] []) ->
    render lib fig 150 "tight" = inl e ->
    behaviour lib files (mkOutcome (Traceback e) (mkWorld files [fig] []))
| saved text df fig bytes :
    files !! input_file = Some text ->
    parse_csv lib text = inr df ->
    empty df = false ->
    well_formed lib df ->
    four_charts df fig ->
    draw_figure lib df (initial ∅) = (Ok tt, mkWorld ∅ [fig] []) ->
    render lib fig 150 "tight" = inr bytes ->
    behaviour lib files
      (mkOutcome
         (match show_figs lib [fig] with Some e => Traceback e | None => Exited 0 end)
         (mkWorld (<[output_file := bytes]> files) [fig]
            [EvSavefig output_file fig 150 "tight"; EvPrint msg_saved; EvShow [fig]])).

(** The subplot at a row and a column of the grid. *)
Definition subplot_at (fig : Figure) (row col : nat) : option Axes :=
  fig_axes fig !! (row * fig_ncols fig + col)%nat.

(** A subplot that holds one unlabelled line, column [c] over the episode
    index, in a given colour and opacity, with its labels, its title, a
    grid and no legend. *)
Definition series_chart (df : DataFrame) (c color : string) (alpha : option Q)
    (xl yl t : string) (a : Axes) : Prop :=
  exists ep y,
    column (df_columns df) "episode" = Some ep /\
    column (df_columns df) c = Some y /\
    ax_lines a =
      [ {| l_x := ep; l_y := y; l_alpha := alpha; l_label := None;
           l_linewidth := None; l_color := Some color |} ] /\
    ax_xlabel a = xl /\ ax_ylabel a = yl /\ ax_title a = t /\
    ax_legend a = None /\ ax_grid a = Some 0.3%Q.

(** What the drawing phase leaves beyond the first chart. *)
Definition figure_details (df : DataFrame) (fig : Figure) : Prop :=
  fig_size fig = (14, 10)%Q /\
  fig_suptitle fig = Some ("Breakout RL Training Metrics"%string, 16%Z, "bold"%string) /\
  fig_tight fig = true /\
  (exists a, subplot_at fig 0 0 = Some a /\
     ax_xlabel a = "Episode"%string /\ ax_ylabel a = "Reward"%string /\
     ax_title a = "Rewards"%string /\ ax_grid a = Some 0.3%Q /\
     map l_alpha (ax_lines a) = [Some 0.6%Q; None]) /\
  (exists a, subplot_at fig 0 1 = Some a /\
     series_chart df "loss" "red" (Some 0.7%Q) "Episode" "Loss (EMA)" "Training Loss" a) /\
  (exists a, subplot_at fig 1 0 = Some a /\
     series_chart df "epsilon" "green" None "Episode" "Epsilon" "Exploration Rate Decay" a) /\
  (exists a, subplot_at fig 1 1 = Some a /\
     series_chart df "steps_per_sec" "purple" (Some 0.7%Q)
       "Episode" "Steps/Second" "Training Throughput" a).

(** Two tables hold the same data under each of the given names. *)
Definition agree_on (cols : list string) (df1 df2 : DataFrame) : Prop :=
  forall c, In c cols -> column (df_columns df1) c = column (df_columns df2) c.

(** A table with malformed rows: a required column is missing, or one
    holds a value that is not a number. *)
Definition malformed (df : DataFrame) : Prop :=
  exists c, In c required_columns /\
    (column (df_columns df) c = None \/
     exists s, column (df_columns df) c = Some s /\ s_dtype s = Object).

(** ** Concrete runs *)

Example run_three_episodes :
  let o := run (Double.library true None) (Double.dir Double.three_episodes) in
  termination o = Exited 0 /\
  stdout o = [msg_saved] /\
  files_after o !! output_file =
    Some "Rewards|Training Loss|Exploration Rate Decay|Training Throughput"%string.
Proof. vm_compute. auto. Qed.

Example run_missing :
  let o := run (Double.library true None) ∅ in
  termination o = Exited 1 /\ stdout o = [msg_not_found] /\ files_after o = ∅.
Proof. vm_compute. auto. Qed.

Example run_header_only :
  let o := run (Double.library true None) (Double.dir Double.header_only) in
  termination o = Exited 1 /\ stdout o = [msg_empty].
Proof. vm_compute. auto. Qed.

Example run_zero_bytes :
  let o := run (Double.library true None) (Double.dir "") in
  termination o = Traceback EmptyDataError /\ stdout o = [].
Proof. vm_compute. auto. Qed.

Example run_no_loss_column :
  let o := run (Double.library true None) (Double.dir Double.no_loss_column) in
  termination o = Traceback (KeyError "loss") /\ stdout o = [].
Proof. vm_compute. auto. Qed.

(** ** Phase lemmas *)

Section Phases.

Context (lib : Library).

(** Lines 11-19 in closed form: the only two handled failures are the
    missing file and the empty table. *)
Lemma load_table_eq (w : World) :
  load_table lib w =
  match fs w !! input_file with
  | None => (Exit 1, log (EvPrint msg_not_found) w)
  | Some text =>
      match parse_csv lib text with
      | inl e =>
          if isinstance_FileNotFoundError e
          then (Exit 1, log (EvPrint msg_not_found) w)
          else (Raise e, w)
      | inr df =>
          if empty df then (Exit 1, log (EvPrint msg_empty) w) else (Ok df, w)
      end
  end.
Proof.
  unfold load_table, try_except, read_csv, bind, lift, input_file.
  destruct (fs w !! "train-log.csv"%string) as [text|]; [|reflexivity].
  destruct (parse_csv lib text) as [e|df].
  - destruct (isinstance_FileNotFoundError e); reflexivity.
  - destruct (empty df); reflexivity.
Qed.

(** Lines 60-62 in closed form. *)
Lemma save_and_show_eq (w : World) :
  save_and_show lib w =
  let fl := ensure_figure (figs w) in
  let fig := default default_figure (fl !! pred (length fl)) in
  match render lib fig 150 "tight" with
  | inl e => (Raise e, set_figs fl w)
  | inr bytes =>
      (match show_figs lib fl with Some e => Raise e | None => Ok tt end,
       {| fs := <[output_file := bytes]> (fs w);
          figs := fl;
          trace := trace w ++ [EvSavefig output_file fig 150 "tight";
                               EvPrint msg_saved; EvShow fl] |})
  end.
Proof.
  unfold save_and_show, savefig, bind, gcf, print, show, log. cbn.
  destruct (render lib _ _ _); [reflexivity|]. cbn.
  destruct (show_figs lib _); cbn; rewrite <- !app_assoc; reflexivity.
Qed.

End Phases.

Section Draw.

Context (lib : Library).

Ltac step_draw df :=
  match goal with
  | |- context [column (df_columns df) ?k] =>
      lazymatch goal with
      | H : column (df_columns df) k = _ |- _ => rewrite !H
      | _ => destruct (column (df_columns df) k) eqn:?
      end
  | |- context [plot_check lib ?x ?y] =>
      lazymatch goal with
      | H : plot_check lib x y = _ |- _ => rewrite !H
      | _ => destruct (plot_check lib x y) eqn:?
      end
  end; cbn.

Lemma draw_figure_cases (df : DataFrame) (w : World) :
  match draw_figure lib df w with
  | (Ok _, _) => well_formed lib df
  | (Raise e, _) => cause lib df e
  | (Exit _, _) => False
  end.
Proof.
  unfold draw_figure, plot_rewards, plot_loss, plot_epsilon, plot_throughput,
    bind, lift, getitem, plot, subplots, suptitle, axes_getitem.
  cbn.
  repeat step_draw df.
  all: try (eapply cause_missing; [|eassumption]; cbn; tauto).
  all: try match goal with
    | Hp : plot_check lib ?x ?y = Some ?e,
      Hx : column _ "episode" = Some ?x,
      Hy : column _ ?c = Some ?y |- cause _ _ ?e =>
        apply (cause_rejected lib df c x y e); [cbn; tauto | exact Hx | exact Hy | exact Hp]
    end.
  eexists; split; [eassumption|].
  intros c [<-|[<-|[<-|[<-|[<-|[]]]]]]; eauto.
Qed.

End Draw.

Create HintDb figs.

Section FigsOnly.

Context (lib : Library).

Lemma figs_only_ret {A} (a : A) : figs_only (ret a).
Proof. intros f fl t. reflexivity. Qed.

Lemma figs_only_lift {A} (r : exn + A) : figs_only (lift r).
Proof. intros f fl t. destruct r; reflexivity. Qed.

Lemma figs_only_bind {A B} (m : M A) (k : A -> M B) :
  figs_only m -> (forall a, figs_only (k a)) -> figs_only (bind m k).
Proof.
  intros Hm Hk f fl t. unfold bind.
  rewrite (Hm f fl t).
  destruct (m (mkWorld ∅ fl [])) as [[a|e|c] [f0 fl0 t0]] eqn:E; cbn;
    [|reflexivity..].
  rewrite (Hk a f fl0 t).
  pose proof (Hm ∅ fl []) as E0. rewrite E in E0. cbn in E0.
  injection E0 as -> ->. reflexivity.
Qed.

Lemma figs_only_update_fig r g : figs_only (update_fig r g).
Proof. intros f fl t. reflexivity. Qed.

Lemma figs_only_update_axes r g : figs_only (update_axes r g).
Proof. apply figs_only_update_fig. Qed.

Lemma figs_only_subplots n m sz : figs_only (subplots n m sz).
Proof. intros f fl t. reflexivity. Qed.

Lemma figs_only_axes_getitem a i j : figs_only (axes_getitem a i j).
Proof. intros f fl t. unfold axes_getitem. destruct (_ && _); reflexivity. Qed.

Lemma figs_only_plot ax x y kw : figs_only (plot lib ax x y kw).
Proof. intros f fl t. unfold plot. destruct (plot_check lib x y); reflexivity. Qed.

Lemma figs_only_gcf : figs_only gcf.
Proof. intros f fl t. reflexivity. Qed.

Hint Resolve figs_only_ret figs_only_lift figs_only_update_fig figs_only_update_axes
  figs_only_subplots figs_only_axes_getitem figs_only_plot figs_only_gcf : figs.

Ltac figs_only_tac :=
  repeat first
    [ apply figs_only_bind; [| intros ?]
    | match goal with |- figs_only (let '(_, _) := ?p in _) => destruct p end
    | solve [auto with figs] ].

Lemma figs_only_draw_figure df : figs_only (draw_figure lib df).
Proof.
  unfold draw_figure, plot_rewards, plot_loss, plot_epsilon, plot_throughput,
    tight_layout, suptitle, set_xlabel, set_ylabel, set_title, legend, grid.
  figs_only_tac.
Qed.

(** Drawing leaves the directory and the trace as they are. *)
Lemma draw_figure_frame df w :
  fs (draw_figure lib df w).2 = fs w /\ trace (draw_figure lib df w).2 = trace w.
Proof.
  destruct w as [f fl t]. rewrite (figs_only_draw_figure df f fl t). cbn. auto.
Qed.

(** What is drawn does not depend on the directory. *)
Lemma draw_figure_any_fs df f1 f2 :
  (draw_figure lib df (initial f1)).1 = (draw_figure lib df (initial f2)).1 /\
  figs (draw_figure lib df (initial f1)).2 = figs (draw_figure lib df (initial f2)).2.
Proof.
  unfold initial.
  rewrite (figs_only_draw_figure df f1 [] []), (figs_only_draw_figure df f2 [] []).
  cbn. auto.
Qed.

End FigsOnly.

Section Main.

Context (lib : Library).

(** On a well-formed table the drawing phase succeeds and leaves exactly
    the four charts in the figure store. *)
Lemma draw_figure_initial (df : DataFrame) (files : gmap string string) :
  well_formed lib df ->
  exists fig,
    draw_figure lib df (initial files) = (Ok tt, mkWorld files [fig] []) /\
    four_charts df fig.
Proof.
  intros (ep & Hep & Hy).
  destruct (Hy "reward"%string) as (rw & Hrw & Crw); [cbn; tauto|].
  destruct (Hy "avg100"%string) as (av & Hav & Cav); [cbn; tauto|].
  destruct (Hy "loss"%string) as (ls & Hls & Cls); [cbn; tauto|].
  destruct (Hy "epsilon"%string) as (eps & Heps & Ceps); [cbn; tauto|].
  destruct (Hy "steps_per_sec"%string) as (sps & Hsps & Csps); [cbn; tauto|].
  clear Hy. eexists. split.
  - vm_compute in Hep, Hrw, Hav, Hls, Heps, Hsps, Crw, Cav, Cls, Ceps, Csps.
    vm_compute. rewrite Hep, Hrw. vm_compute. rewrite Crw. vm_compute.
    rewrite Hav. vm_compute. rewrite Cav. vm_compute.
    rewrite Hls. vm_compute. rewrite Cls. vm_compute.
    rewrite Heps. vm_compute. rewrite Ceps. vm_compute.
    rewrite Hsps. vm_compute. rewrite Csps. vm_compute. reflexivity.
  - unfold four_charts, decorated, rewards_chart. cbn.
    repeat split; try reflexivity.
    + repeat constructor; try discriminate; eexists; repeat split.
    + eexists; split; [reflexivity|].
      exists ep, rw, av. do 2 eexists. cbn. repeat split; eauto.
Qed.

End Main.

Section Behaviour.

Context (lib : Library).

(** The whole script in closed form, started in a new process. *)
Lemma main_eq (files : gmap string string) :
  main lib (initial files) =
  match files !! input_file with
  | None => (Exit 1, mkWorld files [] [EvPrint msg_not_found])
  | Some text =>
      match parse_csv lib text with
      | inl e =>
          if isinstance_FileNotFoundError e
          then (Exit 1, mkWorld files [] [EvPrint msg_not_found])
          else (Raise e, mkWorld files [] [])
      | inr df =>
          if empty df then (Exit 1, mkWorld files [] [EvPrint msg_empty])
          else
            match draw_figure lib df (initial ∅) with
            | (Ok _, wd) => save_and_show lib (mkWorld files (figs wd) [])
            | (Raise e, wd) => (Raise e, mkWorld files (figs wd) [])
            | (Exit c, wd) => (Exit c, mkWorld files (figs wd) [])
            end
      end
  end.
Proof.
  unfold main, bind. rewrite load_table_eq. cbn [initial fs].
  destruct (files !! input_file) as [text|]; [|reflexivity].
  destruct (parse_csv lib text) as [e|df].
  { destruct (isinstance_FileNotFoundError e); reflexivity. }
  destruct (empty df); [reflexivity|].
  unfold initial. rewrite (figs_only_draw_figure lib df files [] []).
  destruct (draw_figure lib df (mkWorld ∅ [] [])) as [[[]|e|c] wd]; reflexivity.
Qed.

Lemma cause_not_well_formed (df : DataFrame) (e : exn) :
  cause lib df e -> well_formed lib df -> False.
Proof.
  intros Hc (ep & Hep & Hy). destruct Hc as [c Hin Hnone | c ep' y e Hin Hep' Hc He].
  - destruct Hin as [<-|Hin]; [congruence|].
    destruct (Hy c Hin) as (y & Hcy & _). congruence.
  - destruct (Hy c Hin) as (y' & Hcy & Hok). congruence.
Qed.

Lemma run_behaviour (files : gmap string string) : behaviour lib files (run lib files).
Proof.
  unfold run. rewrite main_eq.
  destruct (files !! input_file) as [text|] eqn:Hin.
  2:{ apply not_found. left. exact Hin. }
  destruct (parse_csv lib text) as [e|df] eqn:Hparse.
  { destruct (isinstance_FileNotFoundError e) eqn:He.
    - apply not_found. right. eauto.
    - eapply read_failed; eauto. }
  destruct (empty df) eqn:Hempty.
  { eapply table_empty; eauto. }
  pose proof (draw_figure_cases lib df (initial ∅)) as Hcases.
  destruct (draw_figure lib df (initial ∅)) as [[[]|e|c] wd] eqn:Hdraw.
  - destruct (draw_figure_initial lib df ∅ Hcases) as (fig & Hfig & Hcharts).
    rewrite Hfig in Hdraw. injection Hdraw as <-.
    rewrite save_and_show_eq. cbn.
    destruct (render lib fig 150 "tight") as [e|bytes] eqn:Hrender.
    + eapply save_failed; eauto.
    + unfold finish; cbn.
      replace (match show_figs lib [fig] with
               | Some e => Raise e | None => Ok tt end) with
        (match show_figs lib [fig] with
         | Some e => @Raise unit e | None => Ok tt end) by reflexivity.
      pose proof (saved lib files text df fig bytes Hin Hparse Hempty Hcases Hcharts Hfig Hrender) as B.
      destruct (show_figs lib [fig]); exact B.
  - eapply draw_failed; eauto.
  - destruct Hcases.
Qed.

End Behaviour.

(** ** The claims *)

(** C1. When the working directory holds no file named train-log.csv, the
    program prints exactly the line "Error: train-log.csv not found. Run
    training first.", ends through [sys.exit(1)] with status 1, and writes
    no image: the directory is left as it was. *)
Theorem missing_input_reported (lib : Library) (files : gmap string string) :
  files !! input_file = None ->
  let o := run lib files in
  stdout o = [msg_not_found] /\
  termination o = Exited 1 /\
  exit_status (termination o) = 1%Z /\
  images o = [] /\
  files_after o = files.
Proof.
  intros Hnone. unfold run. rewrite main_eq, Hnone. cbn. auto.
Qed.

Lemma missing_input_reported_witness :
  let o := run (Double.library true None) ∅ in
  stdout o = [msg_not_found] /\
  termination o = Exited 1 /\
  exit_status (termination o) = 1%Z /\
  images o = [] /\
  files_after o = ∅.
Proof.
  apply (missing_input_reported (Double.library true None) ∅). reflexivity.
Defined.

(** C2. When train-log.csv holds a header row and no data row, so that the
    parser returns a table with zero rows, the program prints exactly
    "Error: train-log.csv is empty.", ends through [sys.exit(1)] with
    status 1, and writes no image. *)
Theorem header_only_reported (lib : Library) (files : gmap string string)
    (text : string) (df : DataFrame) :
  files !! input_file = Some text ->
  parse_csv lib text = inr df ->
  df_nrows df = 0%nat ->
  let o := run lib files in
  stdout o = [msg_empty] /\
  termination o = Exited 1 /\
  exit_status (termination o) = 1%Z /\
  images o = [] /\
  files_after o = files.
Proof.
  intros Hin Hparse Hrows. unfold run. rewrite main_eq, Hin, Hparse.
  unfold empty. rewrite Hrows. cbn. auto.
Qed.

Lemma header_only_reported_witness :
  let o := run (Double.library true None) (Double.dir Double.header_only) in
  stdout o = [msg_empty] /\
  termination o = Exited 1 /\
  exit_status (termination o) = 1%Z /\
  images o = [] /\
  files_after o = Double.dir Double.header_only.
Proof.
  eapply (header_only_reported (Double.library true None)
            (Double.dir Double.header_only) Double.header_only);
    vm_compute; reflexivity.
Defined.

Lemma well_formed_has_column (lib : Library) (df : DataFrame) :
  well_formed lib df -> (length (df_columns df) =? 0)%nat = false.
Proof.
  intros (ep & Hep & _). destruct (df_columns df); [discriminate Hep | reflexivity].
Qed.

(** C3. On a well-formed table (at least one data row, the six columns
    present, their data accepted by the plotting library), when rendering
    and display do not fail, the program writes exactly one image,
    training_metrics.png, prints the one confirmation line, and ends with
    status 0. *)
Theorem well_formed_input_succeeds (lib : Library) (files : gmap string string)
    (text : string) (df : DataFrame) :
  files !! input_file = Some text ->
  parse_csv lib text = inr df ->
  (0 < df_nrows df)%nat ->
  well_formed lib df ->
  (forall fig, exists bytes, render lib fig 150 "tight" = inr bytes) ->
  (forall fl, show_figs lib fl = None) ->
  let o := run lib files in
  exists fig bytes,
    four_charts df fig /\
    render lib fig 150 "tight" = inr bytes /\
    images o = [(output_file, fig, 150%Z, "tight"%string)] /\
    files_after o = <[output_file := bytes]> files /\
    stdout o = [msg_saved] /\
    termination o = Exited 0 /\
    exit_status (termination o) = 0%Z.
Proof.
  intros Hin Hparse Hrows Hwf Hrender Hshow. unfold run.
  rewrite main_eq, Hin, Hparse.
  assert (empty df = false) as ->.
  { unfold empty. rewrite (well_formed_has_column lib df Hwf).
    destruct (df_nrows df); [lia | reflexivity]. }
  destruct (draw_figure_initial lib df ∅ Hwf) as (fig & -> & Hcharts).
  rewrite save_and_show_eq. cbn.
  destruct (Hrender fig) as (bytes & Hbytes). rewrite Hbytes, Hshow.
  exists fig, bytes. cbn. auto 10.
Qed.

Lemma well_formed_three_episodes :
  well_formed (Double.library true None)
    Double.three_episodes_table.
Proof.
  eexists. split; [vm_compute; reflexivity|].
  intros c [<-|[<-|[<-|[<-|[<-|[]]]]]]; eexists; split; vm_compute; reflexivity.
Defined.

Lemma well_formed_input_succeeds_witness :
  let o := run (Double.library true None) (Double.dir Double.three_episodes) in
  exists fig bytes,
    four_charts Double.three_episodes_table fig /\
    render (Double.library true None) fig 150 "tight" = inr bytes /\
    images o = [(output_file, fig, 150%Z, "tight"%string)] /\
    files_after o = <[output_file := bytes]> (Double.dir Double.three_episodes) /\
    stdout o = [msg_saved] /\
    termination o = Exited 0 /\
    exit_status (termination o) = 0%Z.
Proof.
  eapply (well_formed_input_succeeds (Double.library true None)
            (Double.dir Double.three_episodes) Double.three_episodes
            Double.three_episodes_table).
  - reflexivity.
  - vm_compute. reflexivity.
  - vm_compute. lia.
  - exact well_formed_three_episodes.
  - intros fig. eexists. reflexivity.
  - intros fl. reflexivity.
Defined.

(** When a column is missing from a table that is not empty, or the
    plotting library raises on the data of a column, the first such failure
    ends the run as an uncaught exception: the [KeyError] of a missing
    column or the library's own error. *)
Lemma malformed_input_unhandled (lib : Library) (files : gmap string string)
    (text : string) (df : DataFrame) (e0 : exn) :
  files !! input_file = Some text ->
  parse_csv lib text = inr df ->
  empty df = false ->
  cause lib df e0 ->
  let o := run lib files in
  exists e,
    cause lib df e /\
    termination o = Traceback e /\
    (forall c, termination o <> Exited c) /\
    stdout o = [] /\
    images o = [] /\
    files_after o = files.
Proof.
  intros Hin Hparse Hempty Hcause. unfold run.
  rewrite main_eq, Hin, Hparse, Hempty.
  pose proof (draw_figure_cases lib df (initial ∅)) as Hcases.
  destruct (draw_figure lib df (initial ∅)) as [[[]|e|c] wd].
  - destruct (cause_not_well_formed lib df e0 Hcause Hcases).
  - exists e. cbn. repeat split; auto.
  - destruct Hcases.
Qed.

Lemma malformed_input_unhandled_witness :
  let o := run (Double.library true None) (Double.dir Double.no_loss_column) in
  exists e,
    cause (Double.library true None)
      Double.no_loss_column_table e /\
    termination o = Traceback e /\
    (forall c, termination o <> Exited c) /\
    stdout o = [] /\
    images o = [] /\
    files_after o = Double.dir Double.no_loss_column.
Proof.
  eapply (malformed_input_unhandled (Double.library true None)
            (Double.dir Double.no_loss_column) Double.no_loss_column
            Double.no_loss_column_table (KeyError "loss")).
  - reflexivity.
  - vm_compute. reflexivity.
  - vm_compute. reflexivity.
  - apply cause_missing; [cbn; tauto | vm_compute; reflexivity].
Defined.

(** C4, the claim as written fails: matplotlib plots a text column as
    categories.  With a plotting library that accepts it, a non-empty table
    whose loss column holds a value that is not a number ends with status
    0 and an image on disk, not with an uncaught error. *)
Lemma malformed_input_can_succeed :
  let lib := Double.library false None in
  let files := Double.dir Double.text_in_loss in
  files !! input_file = Some Double.text_in_loss /\
  parse_csv lib Double.text_in_loss = inr Double.text_in_loss_table /\
  empty Double.text_in_loss_table = false /\
  malformed Double.text_in_loss_table /\
  termination (run lib files) = Exited 0 /\
  ~ (exists e, termination (run lib files) = Traceback e) /\
  is_Some (files_after (run lib files) !! output_file).
Proof.
  cbn zeta. split; [reflexivity|]. split; [vm_compute; reflexivity|].
  split; [vm_compute; reflexivity|]. split.
  { exists "loss"%string. split; [cbn; tauto|]. right.
    eexists. split; vm_compute; reflexivity. }
  assert (termination (run (Double.library false None)
                         (Double.dir Double.text_in_loss)) = Exited 0) as Hterm
    by (vm_compute; reflexivity).
  split; [exact Hterm|]. split.
  - intros (e & He). rewrite Hterm in He. discriminate He.
  - vm_compute. eexists. reflexivity.
Qed.

(** C4, amended.  A table that is not empty gets no validation and no
    handling: whatever its columns and values, the run does not end through
    [sys.exit] with a failure status and prints neither error message (the
    emptiness test is the only check).  A missing required column, or data
    the plotting library raises on, ends the run with an uncaught exception
    (the [KeyError] of a missing column or the library's own error), with
    nothing printed and nothing written.  Data the library accepts, numeric
    or not, is plotted as it is: then only [savefig] or the display can
    still fail. *)
Theorem malformed_rows_get_no_handling (lib : Library) (files : gmap string string)
    (text : string) (df : DataFrame) :
  files !! input_file = Some text ->
  parse_csv lib text = inr df ->
  empty df = false ->
  let o := run lib files in
  (forall c, termination o = Exited c -> c = 0%Z) /\
  ~ In msg_not_found (stdout o) /\
  ~ In msg_empty (stdout o) /\
  ((exists c, In c required_columns /\ column (df_columns df) c = None) ->
   exists e, cause lib df e /\ termination o = Traceback e /\
             stdout o = [] /\ images o = [] /\ files_after o = files) /\
  (forall c ep y e0,
     In c plotted_columns ->
     column (df_columns df) "episode" = Some ep ->
     column (df_columns df) c = Some y ->
     plot_check lib ep y = Some e0 ->
     exists e, cause lib df e /\ termination o = Traceback e /\
               stdout o = [] /\ images o = [] /\ files_after o = files) /\
  (well_formed lib df ->
   forall e, termination o = Traceback e ->
     (exists fig, render lib fig 150 "tight" = inl e) \/
     (exists fl, show_figs lib fl = Some e)).
Proof.
  intros Hin Hparse Hempty. cbn zeta.
  assert (forall e0, cause lib df e0 ->
            exists e, cause lib df e /\ termination (run lib files) = Traceback e /\
                      stdout (run lib files) = [] /\ images (run lib files) = [] /\
                      files_after (run lib files) = files) as Hcause.
  { intros e0 He0.
    destruct (malformed_input_unhandled lib files text df e0 Hin Hparse Hempty He0)
      as (e & H1 & H2 & _ & H3 & H4 & H5).
    exists e. auto. }
  pose proof (draw_figure_cases lib df (initial ∅)) as Hcases.
  repeat split.
  - intros c. unfold run. rewrite main_eq, Hin, Hparse, Hempty.
    destruct (draw_figure lib df (initial ∅)) as [[[]|e|c'] wd];
      [| cbn; discriminate | destruct Hcases].
    rewrite save_and_show_eq. cbn.
    destruct (render lib _ 150 "tight"); cbn; [discriminate|].
    destruct (show_figs lib _); cbn; [discriminate|].
    intros Hc. injection Hc as <-. reflexivity.
  - unfold run. rewrite main_eq, Hin, Hparse, Hempty.
    destruct (draw_figure lib df (initial ∅)) as [[[]|e|c'] wd];
      [| cbn; tauto | destruct Hcases].
    rewrite save_and_show_eq. cbn.
    destruct (render lib _ 150 "tight"); cbn; [tauto|].
    intros [Hx|[]]. discriminate Hx.
  - unfold run. rewrite main_eq, Hin, Hparse, Hempty.
    destruct (draw_figure lib df (initial ∅)) as [[[]|e|c'] wd];
      [| cbn; tauto | destruct Hcases].
    rewrite save_and_show_eq. cbn.
    destruct (render lib _ 150 "tight"); cbn; [tauto|].
    intros [Hx|[]]. discriminate Hx.
  - intros (c & Hc & Hnone). apply (Hcause (KeyError c)).
    apply cause_missing; assumption.
  - intros c ep y e0 Hc Hep Hy He0. apply (Hcause e0).
    apply (cause_rejected lib df c ep y e0); assumption.
  - intros Hwf e. unfold run. rewrite main_eq, Hin, Hparse, Hempty.
    destruct (draw_figure_initial lib df ∅ Hwf) as (fig & -> & _).
    rewrite save_and_show_eq. cbn.
    destruct (render lib fig 150 "tight") as [e1|bytes] eqn:Hr; cbn.
    + intros He. injection He as <-. left. exists fig. exact Hr.
    + destruct (show_figs lib [fig]) as [e1|] eqn:Hs; cbn; [|discriminate].
      intros He. injection He as <-. right. exists [fig]. exact Hs.
Qed.

Lemma malformed_rows_get_no_handling_witness :
  let lib := Double.library false None in
  let df := Double.no_loss_column_table in
  let o := run lib (Double.dir Double.no_loss_column) in
  (forall c, termination o = Exited c -> c = 0%Z) /\
  ~ In msg_not_found (stdout o) /\
  ~ In msg_empty (stdout o) /\
  ((exists c, In c required_columns /\ column (df_columns df) c = None) ->
   exists e, cause lib df e /\ termination o = Traceback e /\
             stdout o = [] /\ images o = [] /\
             files_after o = Double.dir Double.no_loss_column) /\
  (forall c ep y e0,
     In c plotted_columns ->
     column (df_columns df) "episode" = Some ep ->
     column (df_columns df) c = Some y ->
     plot_check lib ep y = Some e0 ->
     exists e, cause lib df e /\ termination o = Traceback e /\
               stdout o = [] /\ images o = [] /\
               files_after o = Double.dir Double.no_loss_column) /\
  (well_formed lib df ->
   forall e, termination o = Traceback e ->
     (exists fig, render lib fig 150 "tight" = inl e) \/
     (exists fl, show_figs lib fl = Some e)).
Proof.
  apply (malformed_rows_get_no_handling (Double.library false None)
           (Double.dir Double.no_loss_column) Double.no_loss_column
           Double.no_loss_column_table).
  - reflexivity.
  - vm_compute. reflexivity.
  - vm_compute. reflexivity.
Defined.

(** C5. When train-log.csv exists with zero bytes and the parser raises
    [EmptyDataError] on it, the handler of [FileNotFoundError] does not
    apply and the emptiness test is not reached: neither message is
    printed and the run ends with the uncaught exception, not through
    [sys.exit(1)]. *)
Theorem zero_byte_input_unhandled (lib : Library) (files : gmap string string) :
  files !! input_file = Some ""%string ->
  parse_csv lib "" = inl EmptyDataError ->
  let o := run lib files in
  termination o = Traceback EmptyDataError /\
  (forall c, termination o <> Exited c) /\
  stdout o = [] /\
  images o = [] /\
  files_after o = files.
Proof.
  intros Hin Hparse. unfold run. rewrite main_eq, Hin, Hparse. cbn.
  repeat split; auto.
Qed.

Lemma zero_byte_input_unhandled_witness :
  let o := run (Double.library true None) (Double.dir "") in
  termination o = Traceback EmptyDataError /\
  (forall c, termination o <> Exited c) /\
  stdout o = [] /\
  images o = [] /\
  files_after o = Double.dir "".
Proof.
  apply (zero_byte_input_unhandled (Double.library true None) (Double.dir ""));
    vm_compute; reflexivity.
Defined.

Lemma cycle_color_not (rc : rcParams) (n : nat) (c : string) :
  ~ In c (prop_cycle rc) -> c <> "C0"%string ->
  nth (n mod length (prop_cycle rc)) (prop_cycle rc) "C0"%string <> c.
Proof.
  intros Hnot Hc0 Heq.
  destruct (nth_in_or_default (n mod length (prop_cycle rc)) (prop_cycle rc) "C0"%string)
    as [Hin | Hdef].
  - apply Hnot. rewrite <- Heq. exact Hin.
  - apply Hc0. rewrite <- Heq. exact Hdef.
Qed.

(** C6. Every image the program writes shows a 2-by-2 grid of four
    subplots, each with an x label, a y label, a title and a light grid;
    the first subplot holds exactly two lines over the episode index, the
    reward and the avg100 column, listed in a legend under their two
    labels; and under a style whose default line width is below 2 and
    whose colour cycle has no orange, the avg100 line is drawn wider than
    the reward line and in another colour. *)
Theorem image_holds_four_charts (lib : Library) (files : gmap string string)
    (rc : rcParams) (fname : string) (fig : Figure) (dpi : Z) (bbox : string) :
  In (fname, fig, dpi, bbox) (images (run lib files)) ->
  (lines_linewidth rc < 2)%Q ->
  ~ In "orange"%string (prop_cycle rc) ->
  exists text df,
    files !! input_file = Some text /\
    parse_csv lib text = inr df /\
    four_charts df fig /\
    exists a l1 l2,
      fig_axes fig !! 0%nat = Some a /\
      ax_lines a = [l1; l2] /\
      (drawn_linewidth rc l1 < drawn_linewidth rc l2)%Q /\
      drawn_color rc 0 l1 <> drawn_color rc 0 l2.
Proof.
  intros Him Hlw Hcycle.
  pose proof (run_behaviour lib files) as B.
  remember (run lib files) as o eqn:Ho. clear Ho.
  destruct B as [ | | | | | text df fig' bytes Hin Hparse Hempty Hwf Hcharts Hdraw Hrender];
    cbn in Him; try contradiction.
  destruct Him as [Heq | []]. injection Heq as <- <- <- <-.
  exists text, df. repeat split; try assumption.
  - apply Hcharts.
  - apply Hcharts.
  - apply Hcharts.
  - apply Hcharts.
  - apply Hcharts.
  - destruct Hcharts as (_ & _ & _ & _ & a & Ha & Hr).
    destruct Hr as (ep & rw & av & l1 & l2 & _ & _ & _ & Hlines & _ & _ & _ &
                    Hw1 & Hc1 & _ & _ & _ & Hw2 & Hc2 & _).
    exists a, l1, l2. repeat split; try assumption.
    + unfold drawn_linewidth. rewrite Hw1, Hw2. exact Hlw.
    + unfold drawn_color. rewrite Hc1, Hc2.
      apply cycle_color_not; [exact Hcycle | discriminate].
Qed.

Lemma image_holds_four_charts_witness :
  exists text df,
    Double.dir Double.three_episodes !! input_file = Some text /\
    parse_csv (Double.library true None) text = inr df /\
    four_charts df Double.three_episodes_figure /\
    exists a l1 l2,
      fig_axes Double.three_episodes_figure !! 0%nat = Some a /\
      ax_lines a = [l1; l2] /\
      (drawn_linewidth matplotlib_defaults l1 < drawn_linewidth matplotlib_defaults l2)%Q /\
      drawn_color matplotlib_defaults 0 l1 <> drawn_color matplotlib_defaults 0 l2.
Proof.
  eapply (image_holds_four_charts (Double.library true None)
            (Double.dir Double.three_episodes) matplotlib_defaults
            output_file Double.three_episodes_figure 150 "tight").
  - vm_compute. left. reflexivity.
  - reflexivity.
  - vm_compute. intuition discriminate.
Defined.

(** Whatever the directory holds and whatever the libraries do, every
    image a run writes goes to the file named training_metrics.png,
    rendered at 150 dpi with the tight bounding box, and that file then
    holds the rendering. *)
Lemma output_is_fixed (lib : Library) (files : gmap string string) :
  let o := run lib files in
  Forall (fun im =>
            exists fig bytes,
              im = ("training_metrics.png"%string, fig, 150%Z, "tight"%string) /\
              render lib fig 150 "tight" = inr bytes /\
              files_after o !! "training_metrics.png"%string = Some bytes)
         (images o).
Proof.
  cbn zeta. pose proof (run_behaviour lib files) as B.
  remember (run lib files) as o eqn:Ho. clear Ho.
  destruct B as [ | | | | | text df fig bytes Hin Hparse Hempty Hwf Hcharts Hdraw Hrender];
    cbn; try constructor; [|constructor].
  exists fig, bytes. repeat split; [exact Hrender|].
  unfold files_after. cbn. apply lookup_insert_eq.
Qed.

(** C7. On a table that is drawn and rendered without error the image is
    written, once, under the name training_metrics.png in the working
    directory, at 150 dpi with the tight bounding box, and that entry of
    the directory then holds the rendering; and no directory content and no
    library behaviour makes any run write an image under another name, at
    another resolution or with another bounding box. *)
Theorem image_written_under_fixed_name (lib : Library) (files : gmap string string)
    (text : string) (df : DataFrame) :
  files !! input_file = Some text ->
  parse_csv lib text = inr df ->
  empty df = false ->
  well_formed lib df ->
  (forall fig, exists bytes, render lib fig 150 "tight" = inr bytes) ->
  let o := run lib files in
  (exists fig bytes,
     images o = [("training_metrics.png"%string, fig, 150%Z, "tight"%string)] /\
     render lib fig 150 "tight" = inr bytes /\
     files_after o = <["training_metrics.png"%string := bytes]> files /\
     files_after o !! "training_metrics.png"%string = Some bytes) /\
  (forall lib' files',
     Forall (fun im => exists fig,
               im = ("training_metrics.png"%string, fig, 150%Z, "tight"%string))
            (images (run lib' files'))).
Proof.
  intros Hin Hparse Hempty Hwf Hrender. cbn zeta. split.
  - unfold run. rewrite main_eq, Hin, Hparse, Hempty.
    destruct (draw_figure_initial lib df ∅ Hwf) as (fig & -> & _).
    rewrite save_and_show_eq. cbn.
    destruct (Hrender fig) as (bytes & Hbytes). rewrite Hbytes.
    exists fig, bytes. unfold images, files_after. cbn.
    repeat split; [exact Hbytes|]. apply lookup_insert_eq.
  - intros lib' files'.
    eapply List.Forall_impl; [|apply (output_is_fixed lib' files')].
    intros im (fig & bytes & Him & _). exists fig. exact Him.
Qed.

Lemma image_written_under_fixed_name_witness :
  let lib := Double.library true None in
  let files := Double.with_stale_image Double.three_episodes in
  let o := run lib files in
  (exists fig bytes,
     images o = [("training_metrics.png"%string, fig, 150%Z, "tight"%string)] /\
     render lib fig 150 "tight" = inr bytes /\
     files_after o = <["training_metrics.png"%string := bytes]> files /\
     files_after o !! "training_metrics.png"%string = Some bytes) /\
  (forall lib' files',
     Forall (fun im => exists fig,
               im = ("training_metrics.png"%string, fig, 150%Z, "tight"%string))
            (images (run lib' files'))).
Proof.
  apply (image_written_under_fixed_name (Double.library true None)
           (Double.with_stale_image Double.three_episodes) Double.three_episodes
           Double.three_episodes_table).
  - vm_compute. reflexivity.
  - vm_compute. reflexivity.
  - vm_compute. reflexivity.
  - exact well_formed_three_episodes.
  - intros fig. eexists. reflexivity.
Defined.

(** C8. A run writes at most one file, the output image: every other
    entry of the working directory, the input file among them, is after
    the run what it was before. *)
Theorem only_output_written (lib : Library) (files : gmap string string) :
  let o := run lib files in
  (length (images o) <= 1)%nat /\
  delete output_file (files_after o) = delete output_file files /\
  files_after o !! input_file = files !! input_file.
Proof.
  cbn zeta. pose proof (run_behaviour lib files) as B.
  remember (run lib files) as o eqn:Ho. clear Ho.
  destruct B; unfold files_after; cbn; repeat split; try lia.
  - apply delete_insert_eq.
  - apply lookup_insert_ne. discriminate.
Qed.

(** On any directory, a second run on what the first run left behaves as
    the first did and leaves the directory it found. *)
Lemma rerun_changes_nothing (lib : Library) (files : gmap string string) :
  let o1 := run lib files in
  let o2 := run lib (files_after o1) in
  o2 = o1 /\
  termination o2 = termination o1 /\
  stdout o2 = stdout o1 /\
  images o2 = images o1 /\
  files_after o2 = files_after o1.
Proof.
  cbn zeta.
  assert (run lib (files_after (run lib files)) = run lib files) as Heq.
  { pose proof (run_behaviour lib files) as B.
    remember (run lib files) as o eqn:Ho.
    destruct B as [ | | | |
                   | text df fig bytes Hin Hparse Hempty Hwf Hcharts Hdraw Hrender];
      try (unfold files_after; cbn; rewrite Ho; reflexivity).
    unfold files_after; cbn. clear Ho.
    unfold run. rewrite main_eq.
    rewrite lookup_insert_ne by discriminate.
    rewrite Hin, Hparse, Hempty, Hdraw, save_and_show_eq. cbn.
    rewrite Hrender, insert_insert_eq.
    unfold finish; cbn. destruct (show_figs lib [fig]); reflexivity. }
  rewrite Heq. auto.
Qed.

(** C9. On a table that is drawn and rendered without error, the first run
    writes the image, and a second run on the directory the first one left
    saves the same figure again and overwrites the image with the same
    rendering: same termination, same single line of output, one figure in
    the store, and the directory it leaves is the one it found.  What the
    output file held before a run does not matter: it is overwritten with
    that same rendering. *)
Theorem rerun_overwrites_with_same_image (lib : Library) (files : gmap string string)
    (text : string) (df : DataFrame) :
  files !! input_file = Some text ->
  parse_csv lib text = inr df ->
  empty df = false ->
  well_formed lib df ->
  (forall fig, exists bytes, render lib fig 150 "tight" = inr bytes) ->
  let o1 := run lib files in
  let o2 := run lib (files_after o1) in
  exists fig bytes,
    render lib fig 150 "tight" = inr bytes /\
    images o1 = [(output_file, fig, 150%Z, "tight"%string)] /\
    files_after o1 = <[output_file := bytes]> files /\
    images o2 = [(output_file, fig, 150%Z, "tight"%string)] /\
    files_after o2 !! output_file = Some bytes /\
    files_after o2 = files_after o1 /\
    termination o2 = termination o1 /\
    stdout o1 = [msg_saved] /\
    stdout o2 = [msg_saved] /\
    figs (final o2) = [fig] /\
    (forall previous,
       let o3 := run lib (<[output_file := previous]> files) in
       images o3 = images o1 /\ files_after o3 = files_after o1).
Proof.
  intros Hin Hparse Hempty Hwf Hrender. cbn zeta.
  destruct (rerun_changes_nothing lib files) as (Heq & _).
  rewrite Heq. clear Heq.
  destruct (draw_figure_initial lib df ∅ Hwf) as (fig & Hdraw & _).
  destruct (Hrender fig) as (bytes & Hbytes).
  assert (forall fl, fl !! input_file = Some text ->
            let o := run lib fl in
            images o = [(output_file, fig, 150%Z, "tight"%string)] /\
            files_after o = <[output_file := bytes]> fl /\
            stdout o = [msg_saved] /\
            figs (final o) = [fig]) as Hrun.
  { intros fl Hfl. unfold run. rewrite main_eq, Hfl, Hparse, Hempty, Hdraw.
    rewrite save_and_show_eq. cbn. rewrite Hbytes.
    unfold images, files_after, stdout. cbn. auto. }
  destruct (Hrun files Hin) as (Him & Hfs & Hout & Hfigs).
  exists fig, bytes. rewrite Him, Hfs, Hout, Hfigs.
  repeat split; try assumption.
  - apply lookup_insert_eq.
  - apply (Hrun (<[output_file := previous]> files)).
    rewrite lookup_insert_ne by discriminate. exact Hin.
  - destruct (Hrun (<[output_file := previous]> files)) as (_ & -> & _).
    + rewrite lookup_insert_ne by discriminate. exact Hin.
    + apply insert_insert_eq.
Qed.

Lemma rerun_overwrites_with_same_image_witness :
  let lib := Double.library true None in
  let files := Double.dir Double.three_episodes in
  let o1 := run lib files in
  let o2 := run lib (files_after o1) in
  exists fig bytes,
    render lib fig 150 "tight" = inr bytes /\
    images o1 = [(output_file, fig, 150%Z, "tight"%string)] /\
    files_after o1 = <[output_file := bytes]> files /\
    images o2 = [(output_file, fig, 150%Z, "tight"%string)] /\
    files_after o2 !! output_file = Some bytes /\
    files_after o2 = files_after o1 /\
    termination o2 = termination o1 /\
    stdout o1 = [msg_saved] /\
    stdout o2 = [msg_saved] /\
    figs (final o2) = [fig] /\
    (forall previous,
       let o3 := run lib (<[output_file := previous]> files) in
       images o3 = images o1 /\ files_after o3 = files_after o1).
Proof.
  apply (rerun_overwrites_with_same_image (Double.library true None)
           (Double.dir Double.three_episodes) Double.three_episodes
           Double.three_episodes_table).
  - reflexivity.
  - vm_compute. reflexivity.
  - vm_compute. reflexivity.
  - exact well_formed_three_episodes.
  - intros fig. eexists. reflexivity.
Defined.

(** C10. On a run that ends with status 0 the effects are, in this order,
    the save of the image, the confirmation line and the display attempt;
    and whatever the display does instead, a failure included, the same
    effects happen and the same image is on disk. *)
Theorem save_precedes_display (lib : Library) (files : gmap string string) :
  termination (run lib files) = Exited 0 ->
  let o := run lib files in
  exists fig bytes,
    trace (final o) =
      [EvSavefig output_file fig 150 "tight"; EvPrint msg_saved; EvShow [fig]] /\
    render lib fig 150 "tight" = inr bytes /\
    files_after o = <[output_file := bytes]> files /\
    forall display,
      let o' := run (with_display lib display) files in
      trace (final o') = trace (final o) /\
      images o' = images o /\
      files_after o' = files_after o.
Proof.
  intros Hterm. cbn zeta. pose proof (run_behaviour lib files) as B.
  remember (run lib files) as o eqn:Ho. clear Ho.
  destruct B as [ | | | | | text df fig bytes Hin Hparse Hempty Hwf Hcharts Hdraw Hrender];
    cbn in Hterm; try discriminate.
  exists fig, bytes. unfold files_after. cbn. repeat split; try assumption.
  all: unfold run, images; rewrite main_eq; cbn [parse_csv with_display];
    rewrite Hin, Hparse, Hempty;
    change (draw_figure (with_display lib display) df) with (draw_figure lib df);
    rewrite Hdraw, save_and_show_eq; cbn; rewrite Hrender; reflexivity.
Qed.

Lemma save_precedes_display_witness :
  let files := Double.dir Double.three_episodes in
  let lib := Double.library true None in
  let o := run lib files in
  exists fig bytes,
    trace (final o) =
      [EvSavefig output_file fig 150 "tight"; EvPrint msg_saved; EvShow [fig]] /\
    render lib fig 150 "tight" = inr bytes /\
    files_after o = <[output_file := bytes]> files /\
    forall display,
      let o' := run (with_display lib display) files in
      trace (final o') = trace (final o) /\
      images o' = images o /\
      files_after o' = files_after o.
Proof.
  apply (save_precedes_display (Double.library true None)
           (Double.dir Double.three_episodes)).
  vm_compute. reflexivity.
Defined.

(** A failing display leaves the image on disk and ends the run with the
    display's exception. *)
Example failed_display_keeps_image :
  let o := run (Double.library true (Some RuntimeError))
               (Double.dir Double.three_episodes) in
  termination o = Traceback RuntimeError /\
  is_Some (files_after o !! output_file) /\
  stdout o = [msg_saved].
Proof. vm_compute. repeat split. eexists. reflexivity. Qed.

(** ** Further properties of the script *)

Section Further.

Context (lib : Library).

(** The drawing phase on a well-formed table, beyond the first chart. *)
Lemma draw_figure_details (df : DataFrame) (files : gmap string string) :
  well_formed lib df ->
  exists fig,
    draw_figure lib df (initial files) = (Ok tt, mkWorld files [fig] []) /\
    figure_details df fig.
Proof.
  intros (ep & Hep & Hy).
  destruct (Hy "reward"%string) as (rw & Hrw & Crw); [cbn; tauto|].
  destruct (Hy "avg100"%string) as (av & Hav & Cav); [cbn; tauto|].
  destruct (Hy "loss"%string) as (ls & Hls & Cls); [cbn; tauto|].
  destruct (Hy "epsilon"%string) as (eps & Heps & Ceps); [cbn; tauto|].
  destruct (Hy "steps_per_sec"%string) as (sps & Hsps & Csps); [cbn; tauto|].
  clear Hy. eexists. split.
  - vm_compute in Hep, Hrw, Hav, Hls, Heps, Hsps, Crw, Cav, Cls, Ceps, Csps.
    vm_compute. rewrite Hep, Hrw. vm_compute. rewrite Crw. vm_compute.
    rewrite Hav. vm_compute. rewrite Cav. vm_compute.
    rewrite Hls. vm_compute. rewrite Cls. vm_compute.
    rewrite Heps. vm_compute. rewrite Ceps. vm_compute.
    rewrite Hsps. vm_compute. rewrite Csps. vm_compute. reflexivity.
  - unfold figure_details, series_chart, subplot_at. cbn.
    repeat split.
    + eexists. split; [reflexivity|]. cbn. repeat split.
    + eexists. split; [reflexivity|]. exists ep, ls. cbn. repeat split; assumption.
    + eexists. split; [reflexivity|]. exists ep, eps. cbn. repeat split; assumption.
    + eexists. split; [reflexivity|]. exists ep, sps. cbn. repeat split; assumption.
Qed.

(** Only the six columns are read. *)
Lemma draw_figure_agree (df1 df2 : DataFrame) (w : World) :
  agree_on required_columns df1 df2 ->
  draw_figure lib df1 w = draw_figure lib df2 w.
Proof.
  intros H.
  unfold draw_figure, plot_rewards, plot_loss, plot_epsilon, plot_throughput, getitem.
  rewrite (H "episode"%string), (H "reward"%string), (H "avg100"%string),
    (H "loss"%string), (H "epsilon"%string), (H "steps_per_sec"%string)
    by (cbn; tauto).
  reflexivity.
Qed.

End Further.

(** X1. Any exception of [read_csv] that is not a [FileNotFoundError]
    (a parser error, an undecodable or unreadable file) passes the handler
    of line 13: the run ends with that exception, nothing is printed, no
    figure is created and the directory is left as it was. *)
Theorem read_error_propagates (lib : Library) (files : gmap string string)
    (text : string) (e : exn) :
  files !! input_file = Some text ->
  parse_csv lib text = inl e ->
  isinstance_FileNotFoundError e = false ->
  let o := run lib files in
  termination o = Traceback e /\
  exit_status (termination o) = 1%Z /\
  stdout o = [] /\
  images o = [] /\
  figs (final o) = [] /\
  files_after o = files.
Proof.
  intros Hin Hparse He. unfold run. rewrite main_eq, Hin, Hparse, He. cbn. auto 10.
Qed.

Lemma read_error_propagates_witness :
  let o := run (Double.library true None) (Double.dir Double.ragged) in
  termination o = Traceback ParserError /\
  exit_status (termination o) = 1%Z /\
  stdout o = [] /\
  images o = [] /\
  figs (final o) = [] /\
  files_after o = Double.dir Double.ragged.
Proof.
  apply (read_error_propagates (Double.library true None)
           (Double.dir Double.ragged) Double.ragged ParserError);
    vm_compute; reflexivity.
Defined.

(** X2. The confirmation line is on standard output exactly when an image
    was written, whatever happens afterwards in the display. *)
Theorem confirmation_iff_saved (lib : Library) (files : gmap string string) :
  let o := run lib files in
  In msg_saved (stdout o) <-> images o <> [].
Proof.
  cbn zeta. pose proof (run_behaviour lib files) as B.
  remember (run lib files) as o eqn:Ho. clear Ho.
  destruct B; cbn; split; intros Hx; try congruence; try tauto.
  all: destruct Hx as [Hx|[]]; discriminate Hx.
Qed.

(** X3. A run prints at most one line, one of the three fixed messages;
    it prints one of the two error lines exactly when it ends through
    [sys.exit(1)]; a run that ends with an uncaught exception has printed
    no error line: either nothing, or the confirmation when the exception
    comes from the display after the save. *)
Theorem one_line_at_most (lib : Library) (files : gmap string string) :
  let o := run lib files in
  (stdout o = [] \/ stdout o = [msg_not_found] \/ stdout o = [msg_empty] \/
   stdout o = [msg_saved]) /\
  (termination o = Exited 1 <->
   stdout o = [msg_not_found] \/ stdout o = [msg_empty]) /\
  (forall e, termination o = Traceback e ->
     ~ In msg_not_found (stdout o) /\ ~ In msg_empty (stdout o) /\
     (stdout o = [] \/
      stdout o = [msg_saved] /\ exists fl, show_figs lib fl = Some e)).
Proof.
  cbn zeta. pose proof (run_behaviour lib files) as B.
  remember (run lib files) as o eqn:Ho. clear Ho.
  destruct B as [ | | | | | text df fig bytes Hin Hparse Hempty Hwf Hcharts Hdraw Hrender];
    cbn; (split; [tauto|]); split.
  all: try (split; intros Hx; try tauto; try discriminate Hx;
            try (destruct Hx as [Hx|Hx]; discriminate Hx);
            destruct (show_figs lib [fig]); discriminate Hx).
  all: intros ex He; try discriminate He.
  all: try (repeat split; [tauto | tauto | left; reflexivity]).
  destruct (show_figs lib [fig]) as [e1|] eqn:Hs; [|discriminate He].
  injection He as <-. repeat split.
  - intros [Hx|[]]. discriminate Hx.
  - intros [Hx|[]]. discriminate Hx.
  - right. split; [reflexivity|]. exists [fig]. exact Hs.
Qed.

(** X4. When no image is written the directory is exactly what it was: an
    image left by an earlier run stays in place after a failed run. *)
Theorem failed_run_keeps_directory (lib : Library) (files : gmap string string) :
  images (run lib files) = [] ->
  files_after (run lib files) = files.
Proof.
  intros H. pose proof (run_behaviour lib files) as B.
  remember (run lib files) as o eqn:Ho. clear Ho.
  destruct B; cbn in H; try discriminate H; reflexivity.
Qed.

Lemma failed_run_keeps_directory_witness :
  files_after (run (Double.library true None)
                 (Double.with_stale_image Double.header_only))
  = Double.with_stale_image Double.header_only.
Proof.
  apply (failed_run_keeps_directory (Double.library true None)
           (Double.with_stale_image Double.header_only)).
  vm_compute. reflexivity.
Defined.

(** X5. Whenever the display is attempted, what it is given is the one
    figure that was just saved: nothing is drawn between the save and the
    display, and no second figure exists. *)
Theorem displayed_is_saved (lib : Library) (files : gmap string string)
    (shown : list Figure) :
  In (EvShow shown) (trace (final (run lib files))) ->
  exists fig,
    shown = [fig] /\
    images (run lib files) = [(output_file, fig, 150%Z, "tight"%string)] /\
    figs (final (run lib files)) = [fig].
Proof.
  intros H. pose proof (run_behaviour lib files) as B.
  remember (run lib files) as o eqn:Ho. clear Ho.
  destruct B; cbn in H; try tauto;
    try (destruct H as [H|[]]; discriminate H).
  destruct H as [H|[H|[H|[]]]]; try discriminate H.
  injection H as <-. exists fig. auto.
Qed.

Lemma displayed_is_saved_witness :
  exists fig,
    [Double.three_episodes_figure] = [fig] /\
    images (run (Double.library true None) (Double.dir Double.three_episodes))
      = [(output_file, fig, 150%Z, "tight"%string)] /\
    figs (final (run (Double.library true None) (Double.dir Double.three_episodes)))
      = [fig].
Proof.
  apply (displayed_is_saved (Double.library true None)
           (Double.dir Double.three_episodes) [Double.three_episodes_figure]).
  vm_compute. right. right. left. reflexivity.
Defined.

Section Order.

Context (lib : Library).

Ltac peel pre Hs :=
  destruct pre as [|? pre]; cbn in Hs;
  [ injection Hs as <- <- | injection Hs as <- Hs ].

Ltac known_columns :=
  repeat match goal with
  | H : List.Forall _ (_ :: _) |- _ => inversion H; subst; clear H
  | H : List.Forall _ [] |- _ => clear H
  | H : is_Some (column _ _) |- _ => destruct H as [? H]
  end.

Ltac walk Hok :=
  repeat (first
    [ match goal with
      | H : column (df_columns _) ?k = _ |- context [column (df_columns _) ?k] =>
          rewrite !H
      end
    | match goal with
      | |- context [plot_check _ ?x ?y] =>
          match goal with
          | Hy : column _ ?c' = Some y |- _ =>
              rewrite !(Hok c' x y) by first [assumption | cbn; tauto]
          end
      end ]; cbn).

(** The drawing phase stops at the first column it cannot find. *)
Lemma draw_figure_first_missing (df : DataFrame) (pre post : list string) (c : string) :
  required_columns = pre ++ c :: post ->
  (forall c', In c' pre -> is_Some (column (df_columns df) c')) ->
  (forall c' ep y, In c' pre -> In c' plotted_columns ->
     column (df_columns df) "episode" = Some ep ->
     column (df_columns df) c' = Some y ->
     plot_check lib ep y = None) ->
  column (df_columns df) c = None ->
  exists wd, draw_figure lib df (initial ∅) = (Raise (KeyError c), wd).
Proof.
  intros Hs Hpre Hok Hc.
  apply (proj2 (List.Forall_forall _ _)) in Hpre.
  unfold required_columns in Hs.
  unfold draw_figure, plot_rewards, plot_loss, plot_epsilon, plot_throughput,
    bind, lift, getitem, plot, subplots, suptitle, axes_getitem, initial.
  cbn.
  peel pre Hs; [known_columns; walk Hok; eexists; reflexivity|].
  peel pre Hs; [known_columns; walk Hok; eexists; reflexivity|].
  peel pre Hs; [known_columns; walk Hok; eexists; reflexivity|].
  peel pre Hs; [known_columns; walk Hok; eexists; reflexivity|].
  peel pre Hs; [known_columns; walk Hok; eexists; reflexivity|].
  peel pre Hs; [known_columns; walk Hok; eexists; reflexivity|].
  destruct pre; discriminate Hs.
Qed.

End Order.

(** X6. The columns are looked up in the order episode, reward, avg100,
    loss, epsilon, steps_per_sec; when the ones before a missing column are
    present and their data accepted, the run ends with the [KeyError] that
    names exactly that column, with nothing printed and nothing written. *)
Theorem first_missing_column_reported (lib : Library) (files : gmap string string)
    (text : string) (df : DataFrame) (pre post : list string) (c : string) :
  files !! input_file = Some text ->
  parse_csv lib text = inr df ->
  empty df = false ->
  required_columns = pre ++ c :: post ->
  (forall c', In c' pre -> is_Some (column (df_columns df) c')) ->
  (forall c' ep y, In c' pre -> In c' plotted_columns ->
     column (df_columns df) "episode" = Some ep ->
     column (df_columns df) c' = Some y ->
     plot_check lib ep y = None) ->
  column (df_columns df) c = None ->
  let o := run lib files in
  termination o = Traceback (KeyError c) /\
  stdout o = [] /\
  images o = [] /\
  files_after o = files.
Proof.
  intros Hin Hparse Hempty Hs Hpre Hok Hc. unfold run.
  rewrite main_eq, Hin, Hparse, Hempty.
  destruct (draw_figure_first_missing lib df pre post c Hs Hpre Hok Hc) as (wd & ->).
  cbn. auto.
Qed.

Lemma first_missing_column_reported_witness :
  let o := run (Double.library true None) (Double.dir Double.no_loss_column) in
  termination o = Traceback (KeyError "loss") /\
  stdout o = [] /\
  images o = [] /\
  files_after o = Double.dir Double.no_loss_column.
Proof.
  apply (first_missing_column_reported (Double.library true None)
           (Double.dir Double.no_loss_column) Double.no_loss_column
           Double.no_loss_column_table
           ["episode"; "reward"; "avg100"]%string ["epsilon"; "steps_per_sec"]%string
           "loss"%string).
  - reflexivity.
  - vm_compute. reflexivity.
  - vm_compute. reflexivity.
  - reflexivity.
  - intros c' [<-|[<-|[<-|[]]]]; eexists; vm_compute; reflexivity.
  - intros c' ep y [<-|[<-|[<-|[]]]] _ Hep Hy;
      vm_compute in Hep, Hy; injection Hep as <-; injection Hy as <-; reflexivity.
  - vm_compute. reflexivity.
Defined.

(** X7. Only the six named columns are read: two non-empty tables that
    hold the same data under these six names, whatever else they hold,
    give the same termination and the same effects, the saved figure
    included. *)
Theorem other_columns_ignored (lib : Library) (files1 files2 : gmap string string)
    (text1 text2 : string) (df1 df2 : DataFrame) :
  files1 !! input_file = Some text1 ->
  parse_csv lib text1 = inr df1 ->
  files2 !! input_file = Some text2 ->
  parse_csv lib text2 = inr df2 ->
  empty df1 = false ->
  empty df2 = false ->
  agree_on required_columns df1 df2 ->
  termination (run lib files1) = termination (run lib files2) /\
  trace (final (run lib files1)) = trace (final (run lib files2)) /\
  figs (final (run lib files1)) = figs (final (run lib files2)).
Proof.
  intros Hin1 Hp1 Hin2 Hp2 He1 He2 Hagree. unfold run.
  rewrite !main_eq, Hin1, Hp1, Hin2, Hp2, He1, He2.
  rewrite (draw_figure_agree lib df1 df2 _ Hagree).
  destruct (draw_figure lib df2 (initial ∅)) as [[[]|e|c] wd];
    rewrite ?save_and_show_eq; cbn; auto.
  destruct (render lib _ 150 "tight"); cbn; auto.
Qed.

Lemma other_columns_ignored_witness :
  termination (run (Double.library true None) (Double.dir Double.three_episodes)) =
  termination (run (Double.library true None) (Double.dir Double.with_note_column)) /\
  trace (final (run (Double.library true None) (Double.dir Double.three_episodes))) =
  trace (final (run (Double.library true None) (Double.dir Double.with_note_column))) /\
  figs (final (run (Double.library true None) (Double.dir Double.three_episodes))) =
  figs (final (run (Double.library true None) (Double.dir Double.with_note_column))).
Proof.
  apply (other_columns_ignored (Double.library true None)
           (Double.dir Double.three_episodes) (Double.dir Double.with_note_column)
           Double.three_episodes Double.with_note_column
           Double.three_episodes_table Double.with_note_column_table).
  - reflexivity.
  - vm_compute. reflexivity.
  - reflexivity.
  - vm_compute. reflexivity.
  - vm_compute. reflexivity.
  - vm_compute. reflexivity.
  - intros c [<-|[<-|[<-|[<-|[<-|[<-|[]]]]]]]; vm_compute; reflexivity.
Defined.

(** X8. When the image cannot be rendered or written, the failure of
    [savefig] ends the run: the confirmation is not printed, the display is
    not attempted and the directory is left as it was. *)
Theorem failed_save_not_confirmed (lib : Library) (files : gmap string string)
    (text : string) (df : DataFrame) (e : exn) :
  files !! input_file = Some text ->
  parse_csv lib text = inr df ->
  empty df = false ->
  well_formed lib df ->
  (forall fig, render lib fig 150 "tight" = inl e) ->
  let o := run lib files in
  termination o = Traceback e /\
  exit_status (termination o) = 1%Z /\
  trace (final o) = [] /\
  files_after o = files.
Proof.
  intros Hin Hparse Hempty Hwf Hrender. unfold run.
  rewrite main_eq, Hin, Hparse, Hempty.
  destruct (draw_figure_initial lib df ∅ Hwf) as (fig & -> & _).
  rewrite save_and_show_eq. cbn. rewrite Hrender. cbn. auto.
Qed.

Lemma failed_save_not_confirmed_witness :
  let o := run Double.read_only_library (Double.dir Double.three_episodes) in
  termination o = Traceback PermissionError /\
  exit_status (termination o) = 1%Z /\
  trace (final o) = [] /\
  files_after o = Double.dir Double.three_episodes.
Proof.
  apply (failed_save_not_confirmed Double.read_only_library
           (Double.dir Double.three_episodes) Double.three_episodes
           Double.three_episodes_table PermissionError).
  - reflexivity.
  - vm_compute. reflexivity.
  - vm_compute. reflexivity.
  - exact well_formed_three_episodes.
  - intros fig. reflexivity.
Defined.

(** X9. When the display fails after a successful save, the run ends with
    the display's exception and status 1, although the image is on disk and
    the confirmation has been printed. *)
Theorem failed_display_after_save (lib : Library) (files : gmap string string)
    (text : string) (df : DataFrame) (e : exn) :
  files !! input_file = Some text ->
  parse_csv lib text = inr df ->
  empty df = false ->
  well_formed lib df ->
  (forall fig, exists bytes, render lib fig 150 "tight" = inr bytes) ->
  (forall fl, show_figs lib fl = Some e) ->
  let o := run lib files in
  exists fig bytes,
    render lib fig 150 "tight" = inr bytes /\
    termination o = Traceback e /\
    exit_status (termination o) = 1%Z /\
    stdout o = [msg_saved] /\
    images o = [(output_file, fig, 150%Z, "tight"%string)] /\
    files_after o = <[output_file := bytes]> files.
Proof.
  intros Hin Hparse Hempty Hwf Hrender Hshow. unfold run.
  rewrite main_eq, Hin, Hparse, Hempty.
  destruct (draw_figure_initial lib df ∅ Hwf) as (fig & -> & _).
  rewrite save_and_show_eq. cbn.
  destruct (Hrender fig) as (bytes & Hbytes). rewrite Hbytes, Hshow.
  exists fig, bytes. cbn. auto 10.
Qed.

Lemma failed_display_after_save_witness :
  let lib := Double.library true (Some RuntimeError) in
  let o := run lib (Double.dir Double.three_episodes) in
  exists fig bytes,
    render lib fig 150 "tight" = inr bytes /\
    termination o = Traceback RuntimeError /\
    exit_status (termination o) = 1%Z /\
    stdout o = [msg_saved] /\
    images o = [(output_file, fig, 150%Z, "tight"%string)] /\
    files_after o = <[output_file := bytes]> (Double.dir Double.three_episodes).
Proof.
  apply (failed_display_after_save (Double.library true (Some RuntimeError))
           (Double.dir Double.three_episodes) Double.three_episodes
           Double.three_episodes_table RuntimeError).
  - reflexivity.
  - vm_compute. reflexivity.
  - vm_compute. reflexivity.
  - exact well_formed_three_episodes.
  - intros fig. eexists. reflexivity.
  - intros fl. reflexivity.
Defined.

Lemma saved_figure_details (lib : Library) (files : gmap string string)
    (fname : string) (fig : Figure) (dpi : Z) (bbox : string) :
  In (fname, fig, dpi, bbox) (images (run lib files)) ->
  exists text df,
    files !! input_file = Some text /\
    parse_csv lib text = inr df /\
    figure_details df fig.
Proof.
  intros Him. pose proof (run_behaviour lib files) as B.
  remember (run lib files) as o eqn:Ho. clear Ho.
  destruct B as [ | | | | | text df fig' bytes Hin Hparse Hempty Hwf Hcharts Hdraw Hrender];
    cbn in Him; try contradiction.
  destruct Him as [Heq | []]. injection Heq as <- <- <- <-.
  destruct (draw_figure_details lib df ∅ Hwf) as (fig0 & Hdraw0 & Hdetails).
  rewrite Hdraw in Hdraw0. injection Hdraw0 as <-.
  exists text, df. auto.
Qed.

(** X11. In every image the program writes, the subplot at row 0, column 1
    holds exactly one line, loss over episode, in red; the one at row 1,
    column 0 holds epsilon over episode in green; the one at row 1, column
    1 holds steps_per_sec over episode in purple; each has its own labels
    and title, a grid and no legend. *)
Theorem other_charts_hold_one_series (lib : Library) (files : gmap string string)
    (fname : string) (fig : Figure) (dpi : Z) (bbox : string) :
  In (fname, fig, dpi, bbox) (images (run lib files)) ->
  exists text df a1 a2 a3,
    files !! input_file = Some text /\
    parse_csv lib text = inr df /\
    subplot_at fig 0 1 = Some a1 /\
    series_chart df "loss" "red" (Some 0.7%Q)
      "Episode" "Loss (EMA)" "Training Loss" a1 /\
    subplot_at fig 1 0 = Some a2 /\
    series_chart df "epsilon" "green" None
      "Episode" "Epsilon" "Exploration Rate Decay" a2 /\
    subplot_at fig 1 1 = Some a3 /\
    series_chart df "steps_per_sec" "purple" (Some 0.7%Q)
      "Episode" "Steps/Second" "Training Throughput" a3.
Proof.
  intros Him.
  destruct (saved_figure_details lib files fname fig dpi bbox Him)
    as (text & df & Hin & Hparse & _ & _ & _ & _ &
        (a1 & H1 & C1) & (a2 & H2 & C2) & (a3 & H3 & C3)).
  exists text, df, a1, a2, a3. auto 10.
Qed.

Lemma other_charts_hold_one_series_witness :
  let df := Double.three_episodes_table in
  let fig := Double.three_episodes_figure in
  exists text df a1 a2 a3,
    Double.dir Double.three_episodes !! input_file = Some text /\
    parse_csv (Double.library true None) text = inr df /\
    subplot_at fig 0 1 = Some a1 /\
    series_chart df "loss" "red" (Some 0.7%Q)
      "Episode" "Loss (EMA)" "Training Loss" a1 /\
    subplot_at fig 1 0 = Some a2 /\
    series_chart df "epsilon" "green" None
      "Episode" "Epsilon" "Exploration Rate Decay" a2 /\
    subplot_at fig 1 1 = Some a3 /\
    series_chart df "steps_per_sec" "purple" (Some 0.7%Q)
      "Episode" "Steps/Second" "Training Throughput" a3.
Proof.
  apply (other_charts_hold_one_series (Double.library true None)
           (Double.dir Double.three_episodes)
           output_file Double.three_episodes_figure 150 "tight").
  vm_compute. left. reflexivity.
Defined.

(** X12. Every image the program writes comes from a 14 by 10 figure with
    the bold 16-point heading "Breakout RL Training Metrics", laid out by
    [tight_layout] before the save; its first subplot is labelled Episode
    and Reward, titled Rewards, with the reward line at opacity 0.6 and the
    avg100 line opaque. *)
Theorem figure_heading_and_layout (lib : Library) (files : gmap string string)
    (fname : string) (fig : Figure) (dpi : Z) (bbox : string) :
  In (fname, fig, dpi, bbox) (images (run lib files)) ->
  fig_size fig = (14, 10)%Q /\
  fig_suptitle fig = Some ("Breakout RL Training Metrics"%string, 16%Z, "bold"%string) /\
  fig_tight fig = true /\
  exists a,
    subplot_at fig 0 0 = Some a /\
    ax_xlabel a = "Episode"%string /\
    ax_ylabel a = "Reward"%string /\
    ax_title a = "Rewards"%string /\
    ax_grid a = Some 0.3%Q /\
    map l_alpha (ax_lines a) = [Some 0.6%Q; None].
Proof.
  intros Him.
  destruct (saved_figure_details lib files fname fig dpi bbox Him)
    as (text & df & _ & _ & Hsize & Htitle & Htight & Hfirst & _).
  auto.
Qed.

Lemma figure_heading_and_layout_witness :
  let fig := Double.three_episodes_figure in
  fig_size fig = (14, 10)%Q /\
  fig_suptitle fig = Some ("Breakout RL Training Metrics"%string, 16%Z, "bold"%string) /\
  fig_tight fig = true /\
  exists a,
    subplot_at fig 0 0 = Some a /\
    ax_xlabel a = "Episode"%string /\
    ax_ylabel a = "Reward"%string /\
    ax_title a = "Rewards"%string /\
    ax_grid a = Some 0.3%Q /\
    map l_alpha (ax_lines a) = [Some 0.6%Q; None].
Proof.
  apply (figure_heading_and_layout (Double.library true None)
           (Double.dir Double.three_episodes)
           output_file Double.three_episodes_figure 150 "tight").
  vm_compute. left. reflexivity.
Defined.

(** X13. The run ends with status 0 exactly when the image was written and
    the display then returned without error. *)
Theorem status_zero_iff (lib : Library) (files : gmap string string) :
  let o := run lib files in
  exit_status (termination o) = 0%Z <->
  exists fig,
    images o = [(output_file, fig, 150%Z, "tight"%string)] /\
    show_figs lib [fig] = None.
Proof.
  cbn zeta. pose proof (run_behaviour lib files) as B.
  remember (run lib files) as o eqn:Ho. clear Ho.
  destruct B as [ | | | | | text df fig bytes Hin Hparse Hempty Hwf Hcharts Hdraw Hrender];
    cbn; split; intros Hx; try discriminate Hx;
    try (destruct Hx as (fig0 & Hx & _); discriminate Hx).
  - exists fig. split; [reflexivity|].
    destruct (show_figs lib [fig]); [discriminate Hx | reflexivity].
  - destruct Hx as (fig0 & Heq & Hshow). injection Heq as <-.
    rewrite Hshow. reflexivity.
Qed.
